(** * PD-tech console: navigation shell, client profile view, document upload form

    A shallow embedding of [src/components/Nav.tsx] (three React components:
    [Nav], [FClientProfile], [DocumentsUpload]).  Event handlers are finite
    programs over the calls they make to the browser and to the remote
    backend; React view state is a record updated by the setters the
    handlers call.  The environment that answers the calls is arbitrary;
    a reference backend that keeps tables as row lists is given for the
    statements that speak about stored rows. *)

From Stdlib Require Import ZArith Lia.
From stdpp Require Import base strings list gmap pretty sorting.

Local Open Scope string_scope.
Local Open Scope Z_scope.

(** ** JavaScript values *)

(** Column values of a row and the values spliced into template literals. *)
Inductive Value : Type :=
| VUndefined
| VNull
| VStr (s : string)
| VNum (n : Z).

#[global] Instance Value_eq_dec : EqDecision Value.
Proof. solve_decision. Defined.

(** A row / plain JS object: column name to value. *)
Abbreviation Row := (gmap string Value).

(** What a [catch] clause receives: a value that is [instanceof Error]
    (it has a [message]) or any other thrown value. *)
Inductive JsError : Type :=
| ErrorInstance (message : string)
| OtherThrown (shown : string).

(** The browser [File] picked in a file input. *)
Record File : Type := mkFile {
  file_name : string;
  file_type : string;
  file_size : Z
}.

(** The session user held by the store ([user?.id], [user?.full_name],
    [user?.email]); a missing property is [None]. *)
Record User : Type := mkUser {
  u_id : option string;
  u_full_name : option string;
  u_email : option string
}.

(** JS truthiness of a string-or-undefined. *)
Definition truthy (o : option string) : bool :=
  match o with
  | Some s => negb (String.eqb s "")
  | None => false
  end.

(** [a || d] on a string-or-undefined. *)
Definition or_else (o : option string) (d : string) : string :=
  match o with
  | Some s => if String.eqb s "" then d else s
  | None => d
  end.

(** [user?.id] *)
Definition user_id (user : option User) : option string :=
  match user with
  | Some u => u_id u
  | None => None
  end.

(** [role === 'literal'] on the store's role. *)
Definition role_is (role : option string) (lit : string) : bool :=
  match role with
  | Some r => String.eqb r lit
  | None => false
  end.

(** A route parameter or optional id spliced where a value is expected. *)
Definition opt_value (o : option string) : Value :=
  match o with
  | Some s => VStr s
  | None => VUndefined
  end.

(** ** Declarative queries of the data client *)

Record Query : Type := mkQuery {
  q_table : string;
  q_columns : string;
  q_filters : list (string * Value);
  q_order : option (string * bool)
}.

(** [supabase.from(t).select(cols)] *)
Definition from_select (t cols : string) : Query :=
  {| q_table := t; q_columns := cols; q_filters := []; q_order := None |}.

(** [.eq(col, v)]: the builder appends the filter to itself. *)
Definition eq_ (col : string) (v : Value) (q : Query) : Query :=
  {| q_table := q_table q; q_columns := q_columns q;
     q_filters := q_filters q ++ [(col, v)]; q_order := q_order q |}.

(** [.order(col, { ascending })] *)
Definition order_ (col : string) (ascending : bool) (q : Query) : Query :=
  {| q_table := q_table q; q_columns := q_columns q;
     q_filters := q_filters q; q_order := Some (col, ascending) |}.

(** ** Calls to the environment *)

(** An awaited remote call settles: it resolves to [{ data, error }] or the
    promise rejects and [await] throws. *)
Inductive Settled (A : Type) : Type :=
| Resolved (data : option A) (error : option JsError)
| Rejected (thrown : JsError).
Arguments Resolved {A} data error.
Arguments Rejected {A} thrown.

Record Bucket : Type := mkBucket { b_name : string }.

Record UploadOptions : Type := mkUploadOptions {
  cacheControl : string;
  upsert : bool;
  contentType : option string
}.

Inductive Call : Type :=
(* session store, persisted storage, router *)
| StoreLogout
| LocalStorageClear
| SessionStorageClear
| Navigate (path : string)
(* window *)
| Confirm (msg : string)
| Alert (msg : string)
| WindowOpen (url : string)
| ConsoleError (label : string) (err : JsError)
| ConsoleLog (label : string) (payload : option (list Row))
| DateNow
(* database *)
| AwaitSelect (q : Query)
| AwaitSingle (q : Query)
| AwaitInsert (table : string) (rows : list Row)
| AwaitUpdate (table : string) (patch : Row) (filters : list (string * Value))
| AwaitDelete (table : string) (filters : list (string * Value))
(* object storage *)
| AwaitListBuckets
| AwaitCreateBucket (name : string) (public : bool)
| AwaitUpload (bucket path : string) (f : File) (opts : UploadOptions)
| AwaitRemove (bucket : string) (paths : list string)
| GetPublicUrl (bucket path : string).

(** What the environment hands back for each call. *)
Definition reply_ty (c : Call) : Type :=
  match c with
  | Confirm _ => bool
  | DateNow => Z
  | AwaitSelect _ => Settled (list Row)
  | AwaitSingle _ => Settled Row
  | AwaitInsert _ _ | AwaitUpdate _ _ _ | AwaitDelete _ _ => Settled unit
  | AwaitListBuckets => Settled (list Bucket)
  | AwaitCreateBucket _ _ => Settled unit
  | AwaitUpload _ _ _ _ => Settled unit
  | AwaitRemove _ _ => Settled unit
  | GetPublicUrl _ _ => string
  | _ => unit
  end.

(** Calls that reach the remote backend (database or object storage).
    [getPublicUrl] only formats a URL locally. *)
Definition is_remote (c : Call) : bool :=
  match c with
  | AwaitSelect _ | AwaitSingle _ | AwaitInsert _ _ | AwaitUpdate _ _ _
  | AwaitDelete _ _ | AwaitListBuckets | AwaitCreateBucket _ _
  | AwaitUpload _ _ _ _ | AwaitRemove _ _ => true
  | _ => false
  end.

(** ** Handler programs *)

(** A handler is a finite tree: it returns, throws, calls the environment
    and continues with the reply, or calls a state setter of its component. *)
Inductive Prog (U R : Type) : Type :=
| Ret (r : R)
| Throw (e : JsError)
| Do (c : Call) (k : reply_ty c -> Prog U R)
| Upd (u : U) (k : Prog U R).
Arguments Ret {U R} r.
Arguments Throw {U R} e.
Arguments Do {U R} c k.
Arguments Upd {U R} u k.

Fixpoint bind {U A B} (p : Prog U A) (f : A -> Prog U B) : Prog U B :=
  match p with
  | Ret r => f r
  | Throw e => Throw e
  | Do c k => Do c (fun x => bind (k x) f)
  | Upd u k => Upd u (bind k f)
  end.

(** [try { p } catch (error) { h error }] *)
Fixpoint try_catch {U A} (p : Prog U A) (h : JsError -> Prog U A) : Prog U A :=
  match p with
  | Ret r => Ret r
  | Throw e => h e
  | Do c k => Do c (fun x => try_catch (k x) h)
  | Upd u k => Upd u (try_catch k h)
  end.

(** [try { p } finally { f }] *)
Fixpoint finally {U A} (p : Prog U A) (f : Prog U unit) : Prog U A :=
  match p with
  | Ret r => bind f (fun _ => Ret r)
  | Throw e => bind f (fun _ => Throw e)
  | Do c k => Do c (fun x => finally (k x) f)
  | Upd u k => Upd u (finally k f)
  end.

(** Handlers are written with the monad notations [x ← p; q] and [p;; q]. *)
#[global] Instance Prog_ret {U} : MRet (Prog U) := fun _ r => Ret r.
#[global] Instance Prog_bind {U} : MBind (Prog U) := fun _ _ f p => bind p f.

(** A synchronous call. *)
Definition call {U} (c : Call) : Prog U (reply_ty c) := Do c Ret.

(** A setter call. *)
Definition set {U} (u : U) : Prog U unit := Upd u (Ret tt).

(** [await]: a rejected promise throws at the await. *)
Definition settle {U A} (s : Settled A) : Prog U (option A * option JsError) :=
  match s with
  | Resolved d e => Ret (d, e)
  | Rejected x => Throw x
  end.

(** [if (error) throw error] *)
Definition throw_if {U} (error : option JsError) : Prog U unit :=
  match error with
  | Some e => Throw e
  | None => Ret tt
  end.

(** ** Running a handler against an environment *)

(** One step of the observable history: a call with its reply or a setter. *)
Inductive Event (U : Type) : Type :=
| EvCall (c : Call) (x : reply_ty c)
| EvSet (u : U).
Arguments EvCall {U} c x.
Arguments EvSet {U} u.

Inductive Outcome (R : Type) : Type :=
| Returned (r : R)
| Uncaught (e : JsError).
Arguments Returned {R} r.
Arguments Uncaught {R} e.

Record Run (W S U R : Type) : Type := mkRun {
  trace : list (Event U);
  outcome : Outcome R;
  world : W;
  view : S
}.
Arguments mkRun {W S U R}.
Arguments trace {W S U R}.
Arguments outcome {W S U R}.
Arguments world {W S U R}.
Arguments view {W S U R}.

Definition logged {W S U R} (ev : Event U) (r : Run W S U R) : Run W S U R :=
  mkRun (ev :: trace r) (outcome r) (world r) (view r).

Section Running.
Context {W S U : Type}.
(** The environment: any state [W] and any way of answering calls. *)
Variable respond : forall c : Call, W -> reply_ty c * W.
(** The component's setters acting on its view state. *)
Variable apply : U -> S -> S.

Fixpoint run {R} (p : Prog U R) (w : W) (s : S) : Run W S U R :=
  match p with
  | Ret r => mkRun [] (Returned r) w s
  | Throw e => mkRun [] (Uncaught e) w s
  | Do c k =>
      let xw := respond c w in
      logged (EvCall c (fst xw)) (run (k (fst xw)) (snd xw) s)
  | Upd u k => logged (EvSet u) (run k w (apply u s))
  end.
End Running.

(** The calls of a history, in order. *)
Definition calls {U} (t : list (Event U)) : list Call :=
  omap (fun ev => match ev with EvCall c _ => Some c | EvSet _ => None end) t.

(** The setters of a history, in order. *)
Definition sets {U} (t : list (Event U)) : list U :=
  omap (fun ev => match ev with EvCall _ _ => None | EvSet u => Some u end) t.

(** ** Navigation shell *)

Module Nav.

(** The shell has no setter that [handleLogout] calls. *)
Definition NoSet : Type := Empty_set.

(** [handleLogout] *)
Definition handleLogout : Prog NoSet unit :=
  call StoreLogout;;
  call LocalStorageClear;;
  call SessionStorageClear;;
  call (Navigate "/login");;
  Ret tt.

End Nav.

(** ** String helpers used by the handlers *)

(** The line feed of the template literals. *)
Definition nl : string := String (Ascii.ascii_of_nat 10) EmptyString.

(** [s.split(sep)] for a one-character separator. *)
Fixpoint split_on (sep : Ascii.ascii) (s : string) : list string :=
  match s with
  | EmptyString => [EmptyString]
  | String c r =>
      if Ascii.eqb c sep then EmptyString :: split_on sep r
      else match split_on sep r with
           | h :: t => String c h :: t
           | [] => [String c EmptyString]
           end
  end.

(** [arr.pop()] spliced into a template literal. *)
Definition pop (l : list string) : string := List.last l "undefined".

(** [`${n}`] for an integer. *)
Definition show_Z (n : Z) : string := pretty n.

(** The integers a JavaScript number holds exactly: up to
    [Number.MAX_SAFE_INTEGER] in absolute value. *)
Definition safe_integer (n : Z) : bool := Z.abs n <=? 9007199254740991.

(** [`${v}`].  A safe integer prints as its decimal digits; the text of any
    other number (rounded digits, exponent notation) is the engine's,
    given as [numberText]. *)
Definition show (numberText : Z -> string) (v : Value) : string :=
  match v with
  | VUndefined => "undefined"
  | VNull => "null"
  | VStr s => s
  | VNum n => if safe_integer n then show_Z n else numberText n
  end.

(** A value met in a template literal: a row value, or a number that is
    not an integer (a fraction, [NaN], an infinity), known by the text
    JavaScript prints for it. *)
Inductive Spliced : Type :=
| OfValue (v : Value)
| OtherNumber (text : string).

(** [`${x}`] *)
Definition splice (numberText : Z -> string) (x : Spliced) : string :=
  match x with
  | OfValue v => show numberText v
  | OtherNumber text => text
  end.

(** JS truthiness of a value. *)
Definition truthy_value (v : Value) : bool :=
  match v with
  | VUndefined | VNull => false
  | VStr s => negb (String.eqb s "")
  | VNum n => negb (n =? 0)
  end.

(** [obj.col] on a row. *)
Definition field (r : Row) (col : string) : Value := default VUndefined (r !! col).

(** Characters [encodeURIComponent] leaves alone: letters, digits and
    [- _ . ! ~ * ' ( )] (by character code). *)
Definition uri_unreserved (c : Ascii.ascii) : bool :=
  let n := Ascii.nat_of_ascii c in
  ((65 <=? n) && (n <=? 90))%nat || ((97 <=? n) && (n <=? 122))%nat
  || ((48 <=? n) && (n <=? 57))%nat
  || existsb (fun n' => (n =? n')%nat) [45; 95; 46; 33; 126; 42; 39; 40; 41]%nat.

Definition hex_digit (n : nat) : Ascii.ascii :=
  Ascii.ascii_of_nat (if (n <? 10)%nat then 48 + n else 55 + n)%nat.

(** [encodeURIComponent] on a string held as its UTF-8 bytes: every other
    byte becomes [%XX] in upper-case hexadecimal. *)
Fixpoint encodeURIComponent (s : string) : string :=
  match s with
  | EmptyString => EmptyString
  | String c r =>
      if uri_unreserved c then String c (encodeURIComponent r)
      else let n := Ascii.nat_of_ascii c in
           String (Ascii.ascii_of_nat 37)
             (String (hex_digit (n / 16)%nat)
                (String (hex_digit (n mod 16)%nat) (encodeURIComponent r)))
  end.

(** Whether [s] begins with [p]. *)
Definition starts_with (p s : string) : bool := String.prefix p s.

(** The [.] of [name.split('.')]. *)
Definition dot : Ascii.ascii := Ascii.ascii_of_nat 46.

(** ** Client profile view *)

Module FClientProfile.

Record Loading : Type := mkLoading {
  contact : bool;
  status : bool;
  quotation : bool;
  document : bool
}.

Record NewDocument : Type := mkNewDocument {
  document_type : string;
  description : string;
  file : option File
}.

Record NewContact : Type := mkNewContact {
  name : string;
  position : string;
  email : string;
  phone : string
}.

(** The [useState] cells of the component. *)
Record State : Type := mkState {
  client : option Row;
  contactPersons : list Row;
  documents : list Row;
  showAddContactModal : bool;
  showDocumentModal : bool;
  selectedDocument : option Row;
  EndClientModal : bool;
  completedModal : bool;
  editContact : option Row;
  isAssigned : bool;
  loading : Loading;
  newDocument : NewDocument;
  newContact : NewContact
}.

(** The initial values given to [useState]. *)
Definition initial : State :=
  mkState None [] [] false false None false false None false
    (mkLoading false false false false)
    (mkNewDocument "quotation" "" None)
    (mkNewContact "" "" "" "").

(** The setter calls the handlers make.  [setLoading_document b] is the
    functional update [setLoading(prev => ({...prev, document: b}))]. *)
Inductive Setter : Type :=
| setClient (c : option Row)
| setContactPersons (l : list Row)
| setDocuments (l : list Row)
| setShowAddContactModal (b : bool)
| setShowDocumentModal (b : bool)
| SetEndClientModal (b : bool)
| SetcompletedModal (b : bool)
| setEditContact (c : option Row)
| setIsAssigned (b : bool)
| setLoading (l : Loading)
| setLoading_document (b : bool)
| setNewDocument (d : NewDocument)
| setNewContact (c : NewContact).

(** [{...l, document: b}] *)
Definition with_document (l : Loading) (b : bool) : Loading :=
  mkLoading (contact l) (status l) (quotation l) b.

(** [{...l, status: b}] *)
Definition with_status (l : Loading) (b : bool) : Loading :=
  mkLoading (contact l) b (quotation l) (document l).

Definition apply (u : Setter) (s : State) : State :=
  let '(mkState c cp d am dm sd ec cm edc ia l nd nc) := s in
  match u with
  | setClient x => mkState x cp d am dm sd ec cm edc ia l nd nc
  | setContactPersons x => mkState c x d am dm sd ec cm edc ia l nd nc
  | setDocuments x => mkState c cp x am dm sd ec cm edc ia l nd nc
  | setShowAddContactModal x => mkState c cp d x dm sd ec cm edc ia l nd nc
  | setShowDocumentModal x => mkState c cp d am x sd ec cm edc ia l nd nc
  | SetEndClientModal x => mkState c cp d am dm sd x cm edc ia l nd nc
  | SetcompletedModal x => mkState c cp d am dm sd ec x edc ia l nd nc
  | setEditContact x => mkState c cp d am dm sd ec cm x ia l nd nc
  | setIsAssigned x => mkState c cp d am dm sd ec cm edc x l nd nc
  | setLoading x => mkState c cp d am dm sd ec cm edc ia x nd nc
  | setLoading_document b =>
      mkState c cp d am dm sd ec cm edc ia (with_document l b) nd nc
  | setNewDocument x => mkState c cp d am dm sd ec cm edc ia l x nc
  | setNewContact x => mkState c cp d am dm sd ec cm edc ia l nd x
  end.

(** The component's props and store reads, fixed during one render:
    the route parameter [id], the store's [role] and [user]. *)
Section Handlers.
Variable id : option string.
Variable role : option string.
Variable user : option User.

(** The column list of the quotation query (lines 137-150), with the
    white space of the template literal dropped. *)
Definition quotation_columns : string :=
  "*,employees(full_name,role),quotation_assets(asset_id,quantity,assets(item))".

(** The value of the local [quotationQuery] at the end of the [try]
    block of [loadClientData]. *)
Definition quotationQuery : Query :=
  let q := eq_ "client_id" (opt_value id)
             (from_select "quotations" quotation_columns) in
  if negb (role_is role "admin") && negb (role_is role "head")
  then eq_ "status" (VStr "approved") q
  else q.

(** [loadClientData] *)
Definition loadClientData : Prog Setter unit :=
  try_catch
    ('(clientData, _) ←
       Do (AwaitSingle (eq_ "id" (opt_value id) (from_select "clients" "*")))
          settle;
     set (setClient clientData);;
     '(contactData, _) ←
       Do (AwaitSelect
             (order_ "created_at" false
                (eq_ "client_id" (opt_value id)
                   (from_select "contact_persons" "*"))))
          settle;
     set (setContactPersons (default [] contactData));;
     let _ := quotationQuery in
     Ret tt)
    (fun error =>
       call (ConsoleError "Error loading client data:" error);; Ret tt).

(** The [try] block of [loadClientData] on its own, ending with the value
    its local [quotationQuery] holds when the block is left: the builder
    made by [from('quotations').select(..).eq('client_id', id)], to which
    the [if] adds [.eq('status', 'approved')]. *)
Definition loadClientData_try : Prog Setter Query :=
  '(clientData, _) ←
    Do (AwaitSingle (eq_ "id" (opt_value id) (from_select "clients" "*")))
       settle;
  set (setClient clientData);;
  '(contactData, _) ←
    Do (AwaitSelect
          (order_ "created_at" false
             (eq_ "client_id" (opt_value id)
                (from_select "contact_persons" "*"))))
       settle;
  set (setContactPersons (default [] contactData));;
  let built :=
    eq_ "client_id" (opt_value id) (from_select "quotations" quotation_columns) in
  if negb (role_is role "admin") && negb (role_is role "head")
  then Ret (eq_ "status" (VStr "approved") built)
  else Ret built.

(** The [catch] clause of [loadClientData]. *)
Definition loadClientData_catch (error : JsError) : Prog Setter unit :=
  call (ConsoleError "Error loading client data:" error);; Ret tt.

(** The documents query of [loadDocuments]. *)
Definition documentsQuery : Query :=
  order_ "created_at" false
    (eq_ "client_id" (opt_value id)
       (from_select "documents" "*,employees(full_name)")).

(** [loadDocuments] *)
Definition loadDocuments : Prog Setter unit :=
  finally
    (try_catch
       (set (setLoading_document true);;
        '(documentData, error) ← Do (AwaitSelect documentsQuery) settle;
        throw_if error;;
        call (ConsoleLog "Documents loaded:" documentData);;
        set (setDocuments (default [] documentData)))
       (fun error =>
          call (ConsoleError "Error loading documents:" error);; Ret tt))
    (set (setLoading_document false)).

(** The lookup of [checkAssignment]. *)
Definition assignmentQuery (employee : string) : Query :=
  eq_ "employee_id" (VStr employee)
    (eq_ "client_id" (opt_value id) (from_select "client_assignments" "*")).

(** [checkAssignment] *)
Definition checkAssignment : Prog Setter unit :=
  try_catch
    (if role_is role "admin" || role_is role "finance.employee"
     then set (setIsAssigned true)
     else if negb (truthy (user_id user)) || negb (truthy id)
     then set (setIsAssigned false)
     else
       '(data, _) ←
         Do (AwaitSingle (assignmentQuery (or_else (user_id user) "")))
            settle;
       set (setIsAssigned (bool_decide (is_Some data))))
    (fun error =>
       call (ConsoleError "Error checking assignment:" error);; Ret tt).

(** [handleStatusUpdate]; its parameter has the literal type
    ['completed']. *)
Definition handleStatusUpdate (s : State) (newStatus : string)
  : Prog Setter unit :=
  set (setLoading (with_status (loading s) true));;
  finally
    (try_catch
       ('(_, error) ←
          Do (AwaitUpdate "clients" {[ "status" := VStr newStatus ]}
                [("id", opt_value id)])
             settle;
        throw_if error;;
        set (SetEndClientModal false);;
        set (SetcompletedModal false);;
        loadClientData)
       (fun error =>
          call (ConsoleError "Error updating client status:" error);;
          Ret tt))
    (set (setLoading (with_status (loading s) false))).

(** [{...l, contact: b}] *)
Definition with_contact (l : Loading) (b : bool) : Loading :=
  mkLoading b (status l) (quotation l) (document l).

(** [{ ...newContact, client_id: id }] *)
Definition contactRow (c : NewContact) : Row :=
  list_to_map
    [("name", VStr (name c));
     ("position", VStr (position c));
     ("email", VStr (email c));
     ("phone", VStr (phone c));
     ("client_id", opt_value id)].

(** [handleAddContact], after [e.preventDefault()]. *)
Definition handleAddContact (s : State) : Prog Setter unit :=
  set (setLoading (with_contact (loading s) true));;
  finally
    (try_catch
       ('(_, error) ←
          Do (AwaitInsert "contact_persons" [contactRow (newContact s)]) settle;
        throw_if error;;
        set (setNewContact (mkNewContact "" "" "" ""));;
        set (setShowAddContactModal false);;
        loadClientData)
       (fun error =>
          call (ConsoleError "Error adding contact person:" error);; Ret tt))
    (set (setLoading (with_contact (loading s) false))).

(** The object given to [.update] by [handleUpdateContact]. *)
Definition contactPatch (c : Row) : Row :=
  list_to_map
    [("name", field c "name");
     ("position", field c "position");
     ("email", field c "email");
     ("phone", field c "phone")].

(** [handleUpdateContact], after [e.preventDefault()].  With [editContact]
    still [null], reading [editContact.name] throws a [TypeError] inside the
    [try]; its message is the engine's. *)
Definition handleUpdateContact (s : State) : Prog Setter unit :=
  set (setLoading (with_contact (loading s) true));;
  finally
    (try_catch
       (match editContact s with
        | None =>
            Throw (ErrorInstance "Cannot read properties of null (reading 'name')")
        | Some c =>
            '(_, error) ←
              Do (AwaitUpdate "contact_persons" (contactPatch c)
                    [("id", field c "id")])
                 settle;
            throw_if error;;
            set (setEditContact None);;
            loadClientData
        end)
       (fun error =>
          call (ConsoleError "Error updating contact person:" error);; Ret tt))
    (set (setLoading (with_contact (loading s) false))).

(** [loadAssets]: the rows it fetches are bound to a local and dropped. *)
Definition loadAssets : Prog Setter unit :=
  try_catch
    (_ ← Do (AwaitSelect (order_ "item" true (from_select "assets" "*"))) settle;
     Ret tt)
    (fun error => call (ConsoleError "Error loading assets:" error);; Ret tt).

(** [bucketList?.find(b => b.name === 'documents')] is truthy. *)
Definition has_documents_bucket (bucketList : option (list Bucket)) : bool :=
  match bucketList with
  | Some l => existsb (fun b => String.eqb (b_name b) "documents") l
  | None => false
  end.

(** The metadata row of [handleUploadDocument]. *)
Definition documentRow (uid : string) (d : NewDocument) (f : File)
    (publicUrl filePath : string) : Row :=
  list_to_map
    [("client_id", opt_value id);
     ("employee_id", VStr uid);
     ("document_type", VStr (document_type d));
     ("description", VStr (description d));
     ("file_name", VStr (file_name f));
     ("file_url", VStr publicUrl);
     ("file_path", VStr filePath);
     ("file_type", VStr (file_type f));
     ("file_size", VNum (file_size f))].

(** [`${user.id}/${Date.now()}.${fileExt}`] *)
Definition uploadPath (uid : string) (now : Z) (f : File) : string :=
  uid ++ "/" ++ show_Z now ++ "." ++ pop (split_on dot (file_name f)).

(** The [catch] clause of [handleUploadDocument]. *)
Definition uploadFailed (error : JsError) : Prog Setter unit :=
  call (ConsoleError "Error uploading document:" error);;
  match error with
  | ErrorInstance message => call (Alert ("Upload failed: " ++ message))
  | OtherThrown _ => call (Alert "Upload failed: An unknown error occurred.")
  end.

(** [handleUploadDocument], after [e.preventDefault()]. *)
Definition handleUploadDocument (s : State) : Prog Setter unit :=
  match file (newDocument s), truthy (user_id user) with
  | Some f, true =>
      let uid := or_else (user_id user) "" in
      set (setLoading (with_document (loading s) true));;
      finally
        (try_catch
           ('(bucketList, _) ← Do AwaitListBuckets settle;
            (if negb (has_documents_bucket bucketList)
             then _ ← Do (AwaitCreateBucket "documents" false) settle;
                  Ret tt
             else Ret tt);;
            now ← call DateNow;
            let filePath := uploadPath uid now f in
            '(_, uploadError) ←
              Do (AwaitUpload "documents" filePath f
                    (mkUploadOptions "3600" false None))
                 settle;
            throw_if uploadError;;
            publicUrl ← call (GetPublicUrl "documents" filePath);
            '(_, docError) ←
              Do (AwaitInsert "documents"
                    [documentRow uid (newDocument s) f publicUrl filePath])
                 settle;
            throw_if docError;;
            set (setNewDocument (mkNewDocument "quotation" "" None));;
            set (setShowDocumentModal false);;
            loadDocuments)
           uploadFailed)
        (set (setLoading (with_document (loading s) false)))
  | _, _ => Ret tt
  end.

(** [handleDeleteDocument] *)
Definition handleDeleteDocument (s : State) (documentId filePath : string)
  : Prog Setter unit :=
  ok ← call (Confirm "Are you sure you want to delete this document?");
  if negb ok then Ret tt
  else
    set (setLoading (with_document (loading s) true));;
    finally
      (try_catch
         ('(_, storageError) ←
            Do (AwaitRemove "documents" [filePath]) settle;
          throw_if storageError;;
          '(_, dbError) ←
            Do (AwaitDelete "documents" [("id", VStr documentId)]) settle;
          throw_if dbError;;
          loadDocuments)
         (fun error =>
            call (ConsoleError "Error deleting document:" error);;
            Ret tt))
      (set (setLoading (with_document (loading s) false))).

(** [user?.full_name] and [user?.email] *)
Definition user_full_name : option string :=
  match user with Some u => u_full_name u | None => None end.

Definition user_email : option string :=
  match user with Some u => u_email u | None => None end.

(** The closing lines of both mail bodies. *)
Definition signature : string :=
  "Best regards," ++ nl ++
  or_else user_full_name "Your Representative" ++ nl ++
  or_else user_email "".

(** The compose link both send actions open. *)
Definition composeUrl (to subject body : string) : string :=
  "https://mail.google.com/mail/?view=cm&fs=1&to=" ++ to ++
  "&su=" ++ subject ++ "&body=" ++ body.

(** The engine's text for the integers beyond the safe range. *)
Variable numberText : Z -> string.

(** [subject] of [handleSendDocument], before encoding. *)
Definition documentSubject (doc : Row) : string :=
  "Document: " ++ show numberText (field doc "file_name").

(** [body] of [handleSendDocument], before encoding. *)
Definition documentBody (doc : Row) : string :=
  "Dear Client," ++ nl ++ nl ++
  "Please find attached the document you requested." ++ nl ++ nl ++
  "Document Type: " ++ show numberText (field doc "document_type") ++ nl ++
  "Description: " ++
  (if truthy_value (field doc "description")
   then show numberText (field doc "description") else "N/A") ++ nl ++ nl ++
  signature.

(** [handleSendDocument] *)
Definition handleSendDocument (doc : Row) (contactEmail : string)
  : Prog Setter unit :=
  let subject := encodeURIComponent (documentSubject doc) in
  let body := encodeURIComponent (documentBody doc) in
  call (WindowOpen (composeUrl contactEmail subject body)).

(** One entry of [quotationData.quotation_assets]: [asset.assets.item]
    and [asset.quantity]. *)
Record QuotationAsset : Type := mkQuotationAsset {
  asset_item : Spliced;
  asset_quantity : Spliced
}.

(** The [quotationData] argument of [handleSendEmail]. *)
Record QuotationData : Type := mkQuotationData {
  qd_id : Spliced;
  qd_amount : Spliced;
  qd_start_date : Value;
  qd_end_date : Value;
  qd_description : Spliced;
  quotation_assets : list QuotationAsset
}.

(** [new Date(v).toLocaleDateString()] depends on the browser locale. *)
Variable toLocaleDateString : Value -> string.

(** The rupee sign of the amount line, as its UTF-8 bytes. *)
Definition rupee : string :=
  String (Ascii.ascii_of_nat 226)
    (String (Ascii.ascii_of_nat 130)
       (String (Ascii.ascii_of_nat 185) EmptyString)).

(** [subject] of [handleSendEmail], before encoding. *)
Definition quotationSubject (q : QuotationData) : string :=
  "Quotation #" ++ splice numberText (qd_id q) ++ " Details".

(** [body] of [handleSendEmail], before encoding. *)
Definition quotationBody (q : QuotationData) : string :=
  "Dear Client," ++ nl ++ nl ++
  "Please find below the document:" ++ nl ++ nl ++
  "Amount: " ++ rupee ++ splice numberText (qd_amount q) ++ "/-" ++ nl ++
  "Valid From: " ++ toLocaleDateString (qd_start_date q) ++ nl ++
  "Valid Until: " ++ toLocaleDateString (qd_end_date q) ++ nl ++
  "Description: " ++ splice numberText (qd_description q) ++ nl ++ nl ++
  "Assets Included:" ++ nl ++
  String.concat nl
    (map (fun asset =>
            "- " ++ splice numberText (asset_item asset) ++
            " (Qty: " ++ splice numberText (asset_quantity asset) ++ ")")
       (quotation_assets q)) ++ nl ++ nl ++
  signature.

(** [handleSendEmail] *)
Definition handleSendEmail (email : string) (quotationData : QuotationData)
  : Prog Setter unit :=
  let subject := encodeURIComponent (quotationSubject quotationData) in
  let body := encodeURIComponent (quotationBody quotationData) in
  call (WindowOpen (composeUrl email subject body)).

(** *** What the component renders *)

(** A contact card and whether its "Edit" button is there. *)
Record ContactCard : Type := mkContactCard {
  card_contact : Row;
  edit_shown : bool
}.

(** A document card and whether its "Send to client" and "Delete document"
    buttons are there. *)
Record DocumentCard : Type := mkDocumentCard {
  card_document : Row;
  send_shown : bool;
  delete_shown : bool
}.

Record ProfileView : Type := mkProfileView {
  contact_cards : list ContactCard;
  document_cards : list DocumentCard;
  completed_shown : bool;
  document_modal_shown : bool;
  end_client_modal_shown : bool;
  completed_modal_shown : bool;
  add_contact_modal_shown : bool;
  edit_contact_modal_shown : bool
}.

Inductive Rendered : Type :=
| LoadingClientData
| Profile (v : ProfileView).

(** The returned JSX, reduced to which controls are present. *)
Definition render (s : State) : Rendered :=
  match client s with
  | None => LoadingClientData
  | Some _ =>
      Profile
        {| contact_cards :=
             map (fun c => mkContactCard c (role_is role "finance.employee"))
               (contactPersons s);
           document_cards :=
             map (fun d =>
                    mkDocumentCard d
                      (0 <? Z.of_nat (length (contactPersons s)))
                      (role_is role "admin" || role_is role "finance.employee"))
               (documents s);
           completed_shown := role_is role "finance.employee";
           document_modal_shown := showDocumentModal s;
           end_client_modal_shown := EndClientModal s;
           completed_modal_shown := completedModal s;
           add_contact_modal_shown := showAddContactModal s;
           edit_contact_modal_shown := bool_decide (is_Some (editContact s)) |}
  end.

End Handlers.

End FClientProfile.

(** ** Document upload form *)

Module DocumentsUpload.

Record DocumentData : Type := mkDocumentData {
  client_id : string;
  employee_id : string;
  document_type : string;
  description : string;
  file : option File
}.

Record State : Type := mkState {
  documentData : DocumentData;
  isUploading : bool;
  uploadProgress : Z;
  uploadError : option string;
  uploadSuccess : bool;
  clients : list Row;
  loadingClients : bool
}.

Definition emptyDocumentData : DocumentData := mkDocumentData "" "" "" "" None.

(** The initial values given to [useState]. *)
Definition initial : State :=
  mkState emptyDocumentData false 0 None false [] true.

Inductive Setter : Type :=
| setDocumentData (d : DocumentData)
| setIsUploading (b : bool)
| setUploadProgress (n : Z)
| setUploadError (e : option string)
| setUploadSuccess (b : bool)
| setClients (l : list Row)
| setLoadingClients (b : bool).

Definition apply (u : Setter) (s : State) : State :=
  let '(mkState d iu up ue us cl lc) := s in
  match u with
  | setDocumentData x => mkState x iu up ue us cl lc
  | setIsUploading x => mkState d x up ue us cl lc
  | setUploadProgress x => mkState d iu x ue us cl lc
  | setUploadError x => mkState d iu up x us cl lc
  | setUploadSuccess x => mkState d iu up ue x cl lc
  | setClients x => mkState d iu up ue us x lc
  | setLoadingClients x => mkState d iu up ue us cl x
  end.

(** The client list query of [fetchClients]. *)
Definition clientsQuery : Query :=
  order_ "name" true
    (eq_ "status" (VStr "ecomplete") (from_select "clients" "id, name")).

(** [fetchClients], run once by the mount effect. *)
Definition fetchClients : Prog Setter unit :=
  finally
    (try_catch
       ('(data, error) ← Do (AwaitSelect clientsQuery) settle;
        throw_if error;;
        set (setClients (default [] data)))
       (fun error =>
          call (ConsoleError "Error fetching clients:" error);;
          set (setUploadError (Some "Failed to load client list"))))
    (set (setLoadingClients false)).

Section Handlers.
Variable user : option User.

(** [`documents/${documentData.client_id}_${Date.now()}.${fileExt}`] *)
Definition uploadPath (d : DocumentData) (now : Z) (f : File) : string :=
  "documents/" ++
  (client_id d ++ "_" ++ show_Z now ++ "." ++ pop (split_on dot (file_name f))).

(** The metadata row of [handleSubmit]. *)
Definition documentRow (d : DocumentData) (f : File)
    (publicUrl filePath : string) : Row :=
  list_to_map
    [("client_id", VStr (client_id d));
     ("employee_id", VStr (or_else (user_id user) (employee_id d)));
     ("document_type", VStr (document_type d));
     ("description", VStr (description d));
     ("file_name", VStr (file_name f));
     ("file_url", VStr publicUrl);
     ("file_path", VStr filePath);
     ("file_type", VStr (file_type f));
     ("file_size", VNum (file_size f))].

(** [handleSubmit], after [e.preventDefault()]. *)
Definition handleSubmit (s : State) : Prog Setter unit :=
  match file (documentData s) with
  | None => set (setUploadError (Some "Please select a file to upload"))
  | Some f =>
      set (setIsUploading true);;
      set (setUploadError None);;
      set (setUploadSuccess false);;
      finally
        (try_catch
           (now ← call DateNow;
            let filePath := uploadPath (documentData s) now f in
            '(_, uploadError) ←
              Do (AwaitUpload "documents" filePath f
                    (mkUploadOptions "3600" false (Some (file_type f))))
                 settle;
            throw_if uploadError;;
            publicUrl ← call (GetPublicUrl "documents" filePath);
            '(_, dbError) ←
              Do (AwaitInsert "documents"
                    [documentRow (documentData s) f publicUrl filePath])
                 settle;
            throw_if dbError;;
            set (setUploadSuccess true);;
            set (setDocumentData emptyDocumentData))
           (fun error =>
              call (ConsoleError "Error uploading document:" error);;
              set (setUploadError
                     (Some match error with
                           | ErrorInstance message => message
                           | OtherThrown _ => "Failed to upload document"
                           end))))
        (set (setIsUploading false))
  end.

End Handlers.

(** The [name] attributes of the inputs whose [onChange] is
    [handleInputChange] (the client and document type selects, the employee
    input, the description textarea): the only values [e.target.name] takes
    there. *)
Inductive InputName : Type :=
| name_client_id
| name_employee_id
| name_document_type
| name_description.

(** [{...documentData, [name]: value}] *)
Definition with_input (d : DocumentData) (name : InputName) (value : string)
  : DocumentData :=
  match name with
  | name_client_id =>
      mkDocumentData value (employee_id d) (document_type d) (description d)
        (file d)
  | name_employee_id =>
      mkDocumentData (client_id d) value (document_type d) (description d)
        (file d)
  | name_document_type =>
      mkDocumentData (client_id d) (employee_id d) value (description d)
        (file d)
  | name_description =>
      mkDocumentData (client_id d) (employee_id d) (document_type d) value
        (file d)
  end.

(** [{...documentData, file: f}] *)
Definition with_file (d : DocumentData) (f : option File) : DocumentData :=
  mkDocumentData (client_id d) (employee_id d) (document_type d) (description d) f.

(** [handleInputChange] with [e.target.name] and [e.target.value]. *)
Definition handleInputChange (s : State) (name : InputName) (value : string)
  : Prog Setter unit :=
  set (setDocumentData (with_input (documentData s) name value)).

(** [handleFileChange] with [e.target.files]. *)
Definition handleFileChange (s : State) (files : list File) : Prog Setter unit :=
  match files with
  | f :: _ => set (setDocumentData (with_file (documentData s) (Some f)))
  | [] => Ret tt
  end.

(** [removeFile] *)
Definition removeFile (s : State) : Prog Setter unit :=
  set (setDocumentData (with_file (documentData s) None)).

(** [!user?.id]: whether the "Employee ID" input is rendered. *)
Definition employee_input_shown (user : option User) : bool :=
  negb (truthy (user_id user)).

End DocumentsUpload.

(** ** Reading a history *)

(** The remote calls of a history, in order. *)
Definition remote_calls {U} (t : list (Event U)) : list Call :=
  List.filter is_remote (calls t).

(** The messages shown with [alert], in order. *)
Definition alerts {U} (t : list (Event U)) : list string :=
  omap (fun c => match c with Alert m => Some m | _ => None end) (calls t).

(** The errors written with [console.error], in order. *)
Definition console_errors {U} (t : list (Event U)) : list JsError :=
  omap (fun c => match c with ConsoleError _ e => Some e | _ => None end)
    (calls t).

(** The error of a settled call, thrown or returned in [{ error }]. *)
Definition settled_error {A} (x : Settled A) : option JsError :=
  match x with
  | Resolved _ error => error
  | Rejected e => Some e
  end.

(** The error of a settled call only when the promise rejected. *)
Definition rejected_error {A} (x : Settled A) : option JsError :=
  match x with
  | Resolved _ _ => None
  | Rejected e => Some e
  end.

(** The failure of a step, if the event is a remote call that failed. *)
Definition failure {U} (ev : Event U) : option JsError :=
  match ev with
  | EvCall c x =>
      match c return reply_ty c -> option JsError with
      | AwaitSelect _ => settled_error
      | AwaitSingle _ => settled_error
      | AwaitInsert _ _ => settled_error
      | AwaitUpdate _ _ _ => settled_error
      | AwaitDelete _ _ => settled_error
      | AwaitListBuckets => settled_error
      | AwaitCreateBucket _ _ => settled_error
      | AwaitUpload _ _ _ _ => settled_error
      | AwaitRemove _ _ => settled_error
      | _ => fun _ => None
      end x
  | EvSet _ => None
  end.

(** The answers given to [confirm], in order. *)
Definition confirmations {U} (t : list (Event U)) : list bool :=
  omap (fun ev =>
          match ev with
          | EvCall c x =>
              match c return reply_ty c -> option bool with
              | Confirm _ => Some
              | _ => fun _ => None
              end x
          | EvSet _ => None
          end) t.

(** The values [Date.now()] returned, in order. *)
Definition timestamps {U} (t : list (Event U)) : list Z :=
  omap (fun ev =>
          match ev with
          | EvCall c x =>
              match c return reply_ty c -> option Z with
              | DateNow => Some
              | _ => fun _ => None
              end x
          | EvSet _ => None
          end) t.

(** The URLs [getPublicUrl] returned, in order. *)
Definition public_urls {U} (t : list (Event U)) : list string :=
  omap (fun ev =>
          match ev with
          | EvCall c x =>
              match c return reply_ty c -> option string with
              | GetPublicUrl _ _ => Some
              | _ => fun _ => None
              end x
          | EvSet _ => None
          end) t.

(** The [data] of the row-list queries that resolved, in order. *)
Definition selected {U} (t : list (Event U)) : list (option (list Row)) :=
  omap (fun ev =>
          match ev with
          | EvCall c x =>
              match c return reply_ty c -> option (option (list Row)) with
              | AwaitSelect _ =>
                  fun x => match x with
                           | Resolved d _ => Some d
                           | Rejected _ => None
                           end
              | _ => fun _ => None
              end x
          | EvSet _ => None
          end) t.


(** Whether a call addresses the given table. *)
Definition on_table (t : string) (c : Call) : bool :=
  match c with
  | AwaitSelect q | AwaitSingle q => String.eqb (q_table q) t
  | AwaitInsert t' _ | AwaitUpdate t' _ _ | AwaitDelete t' _ => String.eqb t' t
  | _ => false
  end.

(** ** A reference environment

    The browser side keeps what the handlers can change; the backend keeps
    each table as a list of rows and each stored object as a bucket and
    path.  Every remote call succeeds. *)

Record Browser : Type := mkBrowser {
  store_user : option User;
  store_role : option string;
  local_storage : gmap string string;
  session_storage : gmap string string;
  location : string;
  confirm_answer : bool;
  clock : Z;
  alerted : list string;
  opened : list string
}.

Record Backend : Type := mkBackend {
  tables : gmap string (list Row);
  buckets : list Bucket;
  objects : list (string * string)
}.

Record World : Type := mkWorld {
  browser : Browser;
  backend : Backend
}.

(** The rows of a table. *)
Definition table (b : Backend) (t : string) : list Row :=
  default [] (tables b !! t).

(** A row passes every [.eq] filter. *)
Definition row_matches (filters : list (string * Value)) (r : Row) : bool :=
  forallb (fun cv => bool_decide (r !! cv.1 = Some cv.2)) filters.

(** Column order: numbers by value, strings byte-wise, then nulls. *)
Definition value_rank (v : Value) : Z :=
  match v with
  | VNum _ => 0
  | VStr _ => 1
  | VNull => 2
  | VUndefined => 3
  end.

Definition value_leb (a b : Value) : bool :=
  match a, b with
  | VNum x, VNum y => x <=? y
  | VStr x, VStr y => String.leb x y
  | _, _ => value_rank a <=? value_rank b
  end.

Definition row_le (col : string) (r1 r2 : Row) : Prop :=
  value_leb (field r1 col) (field r2 col) = true.

#[global] Instance row_le_dec col : RelDecision (row_le col).
Proof. intros r1 r2. unfold row_le. apply _. Defined.

(** [.order(col, { ascending })] on the matching rows. *)
Definition sort_rows (o : option (string * bool)) (rows : list Row) : list Row :=
  match o with
  | None => rows
  | Some (col, true) => merge_sort (row_le col) rows
  | Some (col, false) => merge_sort (flip (row_le col)) rows
  end.

(** The rows a query returns.  Whole rows are returned: the column list
    and the joins only shape what the caller sees of each row. *)
Definition eval (q : Query) (b : Backend) : list Row :=
  sort_rows (q_order q)
    (List.filter (row_matches (q_filters q)) (table b (q_table q))).

(** Modelled from the spec: the data client's single-row fetch "fails if
    zero or multiple rows match"; the client library itself is not among
    the sources. *)
Definition single (rows : list Row) : Settled Row :=
  match rows with
  | [r] => Resolved (Some r) None
  | _ => Resolved None (Some (OtherThrown "PGRST116"))
  end.

Definition with_table (b : Backend) (t : string) (rows : list Row) : Backend :=
  mkBackend (<[t := rows]> (tables b)) (buckets b) (objects b).

(** [{...r, ...patch}] *)
Definition patched (patch r : Row) : Row := patch ∪ r.

(** Database writes. *)
Definition insert_rows (t : string) (rows : list Row) (b : Backend) : Backend :=
  with_table b t (table b t ++ rows).

Definition update_rows (t : string) (patch : Row)
    (filters : list (string * Value)) (b : Backend) : Backend :=
  with_table b t
    (map (fun r => if row_matches filters r then patched patch r else r)
       (table b t)).

Definition delete_rows (t : string) (filters : list (string * Value))
    (b : Backend) : Backend :=
  with_table b t
    (List.filter (fun r => negb (row_matches filters r)) (table b t)).

(** Storage writes. *)
Definition create_bucket (name : string) (b : Backend) : Backend :=
  mkBackend (tables b) (buckets b ++ [mkBucket name]) (objects b).

(** Whether an object is stored at the path. *)
Definition holds_object (b : Backend) (bucket path : string) : bool :=
  existsb (fun o => String.eqb o.1 bucket && String.eqb o.2 path) (objects b).

(** Storing an object: a free path gets it, an occupied path keeps its one
    object. *)
Definition put_object (bucket path : string) (b : Backend) : Backend :=
  if holds_object b bucket path then b
  else mkBackend (tables b) (buckets b) (objects b ++ [(bucket, path)]).

(** [.upload(path, file, options)]: with [upsert: false] an occupied path
    is refused and nothing is stored. *)
Definition upload_object (bucket path : string) (opts : UploadOptions)
    (b : Backend) : Settled unit * Backend :=
  if negb (upsert opts) && holds_object b bucket path
  then (Resolved None (Some (ErrorInstance "The resource already exists")), b)
  else (Resolved None None, put_object bucket path b).

Definition remove_objects (bucket : string) (paths : list string)
    (b : Backend) : Backend :=
  mkBackend (tables b) (buckets b)
    (List.filter
       (fun o => negb (String.eqb o.1 bucket && existsb (String.eqb o.2) paths))
       (objects b)).

(** Modelled from the spec: the session store's [logout] (the store module
    is not among the sources) tears the session down: user and role are
    gone afterwards. *)
Definition store_logout (b : Browser) : Browser :=
  mkBrowser None None (local_storage b) (session_storage b) (location b)
    (confirm_answer b) (clock b) (alerted b) (opened b).

(** [localStorage.clear()] *)
Definition clear_local (b : Browser) : Browser :=
  mkBrowser (store_user b) (store_role b) ∅ (session_storage b) (location b)
    (confirm_answer b) (clock b) (alerted b) (opened b).

(** [sessionStorage.clear()] *)
Definition clear_session (b : Browser) : Browser :=
  mkBrowser (store_user b) (store_role b) (local_storage b) ∅ (location b)
    (confirm_answer b) (clock b) (alerted b) (opened b).

(** [navigate(path)] *)
Definition go_to (path : string) (b : Browser) : Browser :=
  mkBrowser (store_user b) (store_role b) (local_storage b) (session_storage b)
    path (confirm_answer b) (clock b) (alerted b) (opened b).

Definition show_alert (m : string) (b : Browser) : Browser :=
  mkBrowser (store_user b) (store_role b) (local_storage b) (session_storage b)
    (location b) (confirm_answer b) (clock b) (alerted b ++ [m]) (opened b).

Definition open_window (url : string) (b : Browser) : Browser :=
  mkBrowser (store_user b) (store_role b) (local_storage b) (session_storage b)
    (location b) (confirm_answer b) (clock b) (alerted b) (opened b ++ [url]).

Definition tick (b : Browser) : Browser :=
  mkBrowser (store_user b) (store_role b) (local_storage b) (session_storage b)
    (location b) (confirm_answer b) (clock b + 1) (alerted b) (opened b).

Definition on_browser (f : Browser -> Browser) (w : World) : World :=
  mkWorld (f (browser w)) (backend w).

Definition on_backend (f : Backend -> Backend) (w : World) : World :=
  mkWorld (browser w) (f (backend w)).

(** The reference environment's answer to each call. *)
Definition respond_ref (c : Call) (w : World) : reply_ty c * World :=
  match c return reply_ty c * World with
  | StoreLogout => (tt, on_browser store_logout w)
  | LocalStorageClear => (tt, on_browser clear_local w)
  | SessionStorageClear => (tt, on_browser clear_session w)
  | Navigate path => (tt, on_browser (go_to path) w)
  | Confirm _ => (confirm_answer (browser w), w)
  | Alert m => (tt, on_browser (show_alert m) w)
  | WindowOpen url => (tt, on_browser (open_window url) w)
  | ConsoleError _ _ => (tt, w)
  | ConsoleLog _ _ => (tt, w)
  | DateNow => (clock (browser w), on_browser tick w)
  | AwaitSelect q => (Resolved (Some (eval q (backend w))) None, w)
  | AwaitSingle q => (single (eval q (backend w)), w)
  | AwaitInsert t rows => (Resolved None None, on_backend (insert_rows t rows) w)
  | AwaitUpdate t patch filters =>
      (Resolved None None, on_backend (update_rows t patch filters) w)
  | AwaitDelete t filters =>
      (Resolved None None, on_backend (delete_rows t filters) w)
  | AwaitListBuckets => (Resolved (Some (buckets (backend w))) None, w)
  | AwaitCreateBucket name _ =>
      (Resolved None None, on_backend (create_bucket name) w)
  | AwaitUpload bucket path _ opts =>
      let rb := upload_object bucket path opts (backend w) in
      (rb.1, on_backend (fun _ => rb.2) w)
  | AwaitRemove bucket paths =>
      (Resolved None None, on_backend (remove_objects bucket paths) w)
  | GetPublicUrl bucket path =>
      ("/storage/v1/object/public/" ++ bucket ++ "/" ++ path, w)
  end.

(** Running each component's handlers. *)
Definition run_nav {W R} (respond : forall c : Call, W -> reply_ty c * W)
    (p : Prog Nav.NoSet R) (w : W) : Run W unit Nav.NoSet R :=
  run respond (fun _ s => s) p w tt.

Definition run_profile {W R} (respond : forall c : Call, W -> reply_ty c * W)
    (p : Prog FClientProfile.Setter R) (w : W) (s : FClientProfile.State)
  : Run W FClientProfile.State FClientProfile.Setter R :=
  run respond FClientProfile.apply p w s.

Definition run_upload {W R} (respond : forall c : Call, W -> reply_ty c * W)
    (p : Prog DocumentsUpload.Setter R) (w : W) (s : DocumentsUpload.State)
  : Run W DocumentsUpload.State DocumentsUpload.Setter R :=
  run respond DocumentsUpload.apply p w s.

(** A sample world: two clients, one assignment, one stored document. *)
Definition sample_user : User :=
  mkUser (Some "e1") (Some "Asha Rao") (Some "asha@pd.example").

Definition sample_tables : gmap string (list Row) :=
  list_to_map
    [("clients",
      [list_to_map [("id", VStr "c1"); ("name", VStr "Zenith");
                    ("status", VStr "ecomplete")];
       list_to_map [("id", VStr "c2"); ("name", VStr "Acme");
                    ("status", VStr "completed")];
       list_to_map [("id", VStr "c3"); ("name", VStr "Borealis");
                    ("status", VStr "ecomplete")]]);
     ("client_assignments",
      [list_to_map [("client_id", VStr "c1"); ("employee_id", VStr "e1")]]);
     ("documents",
      [list_to_map [("id", VStr "d1"); ("client_id", VStr "c1");
                    ("file_path", VStr "e1/1700.pdf")];
       list_to_map [("id", VStr "d2"); ("client_id", VStr "c1");
                    ("file_path", VStr "e1/1701.pdf")]])].

Definition sample_world : World :=
  mkWorld
    (mkBrowser (Some sample_user) (Some "finance.employee")
       {[ "token" := "abc" ]} {[ "draft" := "1" ]} "/clients/c1" true 1700 [] [])
    (mkBackend sample_tables [mkBucket "documents"]
       [("documents", "e1/1700.pdf"); ("documents", "e1/1701.pdf")]).

(** ** Notions used in the statements *)

(** The view state cells other than [client] and [contactPersons]. *)
Definition other_cells (s : FClientProfile.State) :=
  (FClientProfile.documents s, FClientProfile.showAddContactModal s,
   FClientProfile.showDocumentModal s, FClientProfile.selectedDocument s,
   FClientProfile.EndClientModal s, FClientProfile.completedModal s,
   FClientProfile.editContact s, FClientProfile.isAssigned s,
   FClientProfile.loading s, FClientProfile.newDocument s,
   FClientProfile.newContact s).

(** The setters that write [client] or [contactPersons]. *)
Definition writes_client_or_contacts (u : FClientProfile.Setter) : bool :=
  match u with
  | FClientProfile.setClient _ | FClientProfile.setContactPersons _ => true
  | _ => false
  end.

(** The [client_assignments] rows for a client and employee pair. *)
Definition assignment_rows (b : Backend) (cid uid : string) : list Row :=
  List.filter
    (row_matches [("client_id", VStr cid); ("employee_id", VStr uid)])
    (table b "client_assignments").

(** The sample world with the assignment of employee [e1] to client [c1]
    recorded twice. *)
Definition doubled_assignment_world : World :=
  on_backend
    (insert_rows "client_assignments"
       [list_to_map [("client_id", VStr "c1"); ("employee_id", VStr "e1")]])
    sample_world.

(** Characters that may appear in an encoded URI component. *)
Definition uri_safe (c : Ascii.ascii) : bool :=
  uri_unreserved c || Ascii.eqb c (Ascii.ascii_of_nat 37).

(** A document row as the documents list holds it. *)
Definition sample_document : Row :=
  list_to_map
    [("id", VStr "d1"); ("file_name", VStr "offer 7.pdf");
     ("document_type", VStr "quotation"); ("description", VStr "")].

(** The errors of the storage removals that failed, in order. *)
Definition removal_errors {U} (t : list (Event U)) : list JsError :=
  omap (fun ev =>
          match ev with
          | EvCall c x =>
              match c return reply_ty c -> option JsError with
              | AwaitRemove _ _ => settled_error
              | _ => fun _ => None
              end x
          | EvSet _ => None
          end) t.



(** The bucket creation expected after a listing. *)
Definition expected_creation (listed : list (option (list Bucket))) : list Call :=
  match listed with
  | l :: _ =>
      if FClientProfile.has_documents_bucket l then []
      else [AwaitCreateBucket "documents" false]
  | [] => []
  end.


(** An environment whose object storage refuses removals and uploads: the
    reference environment, except that both return an error. *)
Definition respond_storage_refuses (c : Call) (w : World)
  : reply_ty c * World :=
  match c as c0 return reply_ty c0 * World with
  | AwaitRemove _ _ =>
      (Resolved None (Some (ErrorInstance "Object not found")), w)
  | AwaitUpload _ _ _ _ =>
      (Resolved None (Some (ErrorInstance "The resource already exists")), w)
  | c0 => respond_ref c0 w
  end.

(** The sample world before any bucket exists. *)
Definition bucketless_world : World :=
  mkWorld (browser sample_world)
    (mkBackend sample_tables [] []).

(** The profile view with a file picked in the upload modal. *)
Definition picked_file : File := mkFile "deal.final.pdf" "application/pdf" 1024.

Definition upload_ready : FClientProfile.State :=
  FClientProfile.apply
    (FClientProfile.setNewDocument
       (FClientProfile.mkNewDocument "contract" "signed copy" (Some picked_file)))
    FClientProfile.initial.

(** ** Notions used in the further statements *)

(** No path of the program ends in a throw. *)
Fixpoint never_throws {U R} (p : Prog U R) : Prop :=
  match p with
  | Ret _ => True
  | Throw _ => False
  | Do _ k => forall x, never_throws (k x)
  | Upd _ k => never_throws k
  end.

(** Every call on every path of the program passes the test. *)
Fixpoint every_call {U R} (P : Call -> bool) (p : Prog U R) : Prop :=
  match p with
  | Ret _ | Throw _ => True
  | Do c k => P c = true /\ forall x, every_call P (k x)
  | Upd _ k => every_call P k
  end.

(** Calls that change the backend: database writes and storage writes. *)
Definition is_write (c : Call) : bool :=
  match c with
  | AwaitInsert _ _ | AwaitUpdate _ _ _ | AwaitDelete _ _
  | AwaitCreateBucket _ _ | AwaitUpload _ _ _ _ | AwaitRemove _ _ => true
  | _ => false
  end.

(** Calls on the storage service. *)
Definition is_storage (c : Call) : bool :=
  match c with
  | AwaitListBuckets | AwaitCreateBucket _ _ | AwaitUpload _ _ _ _
  | AwaitRemove _ _ | GetPublicUrl _ _ => true
  | _ => false
  end.

(** The value of a hexadecimal digit (upper case), used to read a percent
    escape back. *)
Definition hex_value (c : Ascii.ascii) : nat :=
  let n := Ascii.nat_of_ascii c in
  if (n <? 58)%nat then (n - 48)%nat else (n - 55)%nat.

(** Whether a character occurs in a string. *)
Definition has_char (c : Ascii.ascii) (s : string) : bool :=
  existsb (Ascii.eqb c) (String.list_ascii_of_string s).

(** The failures of the first remote call that was made. *)
Definition first_failure {U} (t : list (Event U)) : option JsError :=
  match List.filter (fun ev => match ev with
                               | EvCall c _ => is_remote c
                               | EvSet _ => false
                               end) t with
  | ev :: _ => failure ev
  | [] => None
  end.

(** The standalone form filled in, with a file picked. *)
Definition form_ready : DocumentsUpload.State :=
  DocumentsUpload.apply
    (DocumentsUpload.setDocumentData
       (DocumentsUpload.mkDocumentData "c1" "" "contract" "signed copy"
          (Some picked_file)))
    DocumentsUpload.initial.

(** The profile view with the add-contact modal filled in. *)
Definition contact_ready : FClientProfile.State :=
  FClientProfile.apply
    (FClientProfile.setNewContact
       (FClientProfile.mkNewContact "Jane Doe" "Buyer" "jane@x.com" "555-0100"))
    (FClientProfile.apply (FClientProfile.setShowAddContactModal true)
       FClientProfile.initial).

(** The error of a remote call whose promise rejected. *)
Definition rejection {U} (ev : Event U) : option JsError :=
  match ev with
  | EvCall c x =>
      match c return reply_ty c -> option JsError with
      | AwaitSelect _ => rejected_error
      | AwaitSingle _ => rejected_error
      | AwaitInsert _ _ => rejected_error
      | AwaitUpdate _ _ _ => rejected_error
      | AwaitDelete _ _ => rejected_error
      | AwaitListBuckets => rejected_error
      | AwaitCreateBucket _ _ => rejected_error
      | AwaitUpload _ _ _ _ => rejected_error
      | AwaitRemove _ _ => rejected_error
      | _ => fun _ => None
      end x
  | EvSet _ => None
  end.

(** The [data] of the single-row queries that resolved, in order. *)
Definition fetched {U} (t : list (Event U)) : list (option Row) :=
  omap (fun ev =>
          match ev with
          | EvCall c x =>
              match c return reply_ty c -> option (option Row) with
              | AwaitSingle _ =>
                  fun x => match x with
                           | Resolved d _ => Some d
                           | Rejected _ => None
                           end
              | _ => fun _ => None
              end x
          | EvSet _ => None
          end) t.

(** A contact row as the contact list holds it, and the profile view with
    that contact opened in the edit modal. *)
Definition sample_contact : Row :=
  list_to_map
    [("id", VStr "p1"); ("client_id", VStr "c1"); ("name", VStr "Jane Doe");
     ("position", VStr "Buyer"); ("email", VStr "jane@x.com");
     ("phone", VStr "555-0100")].

Definition contact_editing : FClientProfile.State :=
  FClientProfile.apply (FClientProfile.setEditContact (Some sample_contact))
    FClientProfile.initial.

(** The sample world with that contact stored, under an older name. *)
Definition contacts_world : World :=
  on_backend
    (insert_rows "contact_persons"
       [<["name" := VStr "J. Doe"]> sample_contact;
        list_to_map [("id", VStr "p2"); ("client_id", VStr "c1");
                     ("name", VStr "Ravi Iyer")]])
    sample_world.

(** An environment whose database refuses every write: the reference
    environment, except that inserts and updates return an error. *)
Definition respond_database_refuses (c : Call) (w : World)
  : reply_ty c * World :=
  match c as c0 return reply_ty c0 * World with
  | AwaitInsert _ _ =>
      (Resolved None (Some (ErrorInstance "permission denied")), w)
  | AwaitUpdate _ _ _ =>
      (Resolved None (Some (ErrorInstance "permission denied")), w)
  | AwaitSelect _ =>
      (Resolved None (Some (ErrorInstance "permission denied")), w)
  | AwaitSingle _ => (Rejected (ErrorInstance "Failed to fetch"), w)
  | c0 => respond_ref c0 w
  end.

(** A quotation as [handleSendEmail] would receive it, with an amount
    that is not an integer. *)
Definition sample_quotation : FClientProfile.QuotationData :=
  FClientProfile.mkQuotationData (OfValue (VNum 41)) (OtherNumber "1500.5")
    (VStr "2026-01-04") (VStr "2026-02-04") (OfValue (VStr "Site cabling"))
    [FClientProfile.mkQuotationAsset (OfValue (VStr "Router")) (OfValue (VNum 2))].

(** The steps of an upload: the remote calls together with [Date.now()]
    and [getPublicUrl]. *)
Definition is_step (c : Call) : bool :=
  is_remote c
  || match c with
     | DateNow | GetPublicUrl _ _ => true
     | _ => false
     end.

(** The steps a history made, in order. *)
Definition steps_made {U} (t : list (Event U)) : list Call :=
  List.filter is_step (calls t).


(** [documentData[name]] for the name of one of the form's inputs. *)
Definition read_input (d : DocumentsUpload.DocumentData)
    (name : DocumentsUpload.InputName) : string :=
  match name with
  | DocumentsUpload.name_client_id => DocumentsUpload.client_id d
  | DocumentsUpload.name_employee_id => DocumentsUpload.employee_id d
  | DocumentsUpload.name_document_type => DocumentsUpload.document_type d
  | DocumentsUpload.name_description => DocumentsUpload.description d
  end.

(** * Properties *)

(** Destructs the replies of an arbitrary environment one call at a time. *)
Ltac next_reply respond :=
  match goal with
  | |- context [respond ?c ?w] =>
      let x := fresh "x" in
      let w' := fresh "w" in
      destruct (respond c w) as [x w']; cbn in x |- *
  end.

Ltac reply_as respond x :=
  match goal with
  | |- context [respond ?c ?w] =>
      let w' := fresh "w" in
      destruct (respond c w) as [x w']; cbn in x |- *
  end.

Ltac settle_reply x :=
  let d := fresh "data" in
  let e := fresh "error" in
  destruct x as [d [e|]|e]; cbn.

Lemma role_is_spec (role : option string) (lit : string) :
  role_is role lit = true <-> role = Some lit.
Proof.
  destruct role as [r|]; simpl; [rewrite String.eqb_eq|]; split; congruence.
Qed.

(** ** Navigation shell *)

Section Logout.
Context {W : Type} (respond : forall c : Call, W -> reply_ty c * W).

Lemma handleLogout_calls (w : W) :
  calls (trace (run_nav respond Nav.handleLogout w))
  = [StoreLogout; LocalStorageClear; SessionStorageClear; Navigate "/login"]
  /\ outcome (run_nav respond Nav.handleLogout w) = Returned tt.
Proof. split; reflexivity. Qed.

End Logout.

Lemma handleLogout_ref (w : World) :
  let b := browser (world (run_nav respond_ref Nav.handleLogout w)) in
  store_user b = None /\ store_role b = None
  /\ local_storage b = ∅ /\ session_storage b = ∅
  /\ location b = "/login".
Proof. cbn. repeat split. Qed.

(** C7. For every prior state, the logout action invokes the session
    store's logout, then clears local persisted storage, then session
    persisted storage, then navigates to the login route, and returns; in
    the reference environment both storages are empty afterwards, the store
    holds no user and no role, and the location is the login route. *)
Theorem C7_logout_clears_and_navigates :
  (forall (W : Type) (respond : forall c : Call, W -> reply_ty c * W) (w : W),
      calls (trace (run_nav respond Nav.handleLogout w))
      = [StoreLogout; LocalStorageClear; SessionStorageClear; Navigate "/login"]
      /\ outcome (run_nav respond Nav.handleLogout w) = Returned tt)
  /\ (forall w : World,
         let b := browser (world (run_nav respond_ref Nav.handleLogout w)) in
         store_user b = None /\ store_role b = None
         /\ local_storage b = ∅ /\ session_storage b = ∅
         /\ location b = "/login"
         /\ backend (world (run_nav respond_ref Nav.handleLogout w)) = backend w).
Proof.
  split.
  - intros W respond w. apply handleLogout_calls.
  - intros w. cbn. repeat split.
Qed.

(** ** Client profile view: loading the client *)

Section LoadClientData.
Context {W : Type} (respond : forall c : Call, W -> reply_ty c * W).
Variable id : option string.

Lemma loadClientData_role_irrelevant (role role' : option string) :
  FClientProfile.loadClientData id role = FClientProfile.loadClientData id role'.
Proof. reflexivity. Qed.

Lemma loadClientData_frame (role : option string) (w : W)
    (s : FClientProfile.State) :
  let r := run_profile respond (FClientProfile.loadClientData id role) w s in
  other_cells (view r) = other_cells s
  /\ forallb writes_client_or_contacts (sets (trace r)) = true
  /\ forallb (fun c => negb (on_table "quotations" c)) (calls (trace r)) = true
  /\ (length (remote_calls (trace r)) <= 2)%nat
  /\ outcome r = Returned tt.
Proof.
  destruct s. unfold run_profile, FClientProfile.loadClientData. cbn.
  next_reply respond. settle_reply x.
  1,2: next_reply respond; settle_reply x; repeat split; lia.
  repeat split; lia.
Qed.

End LoadClientData.

(** C10. [loadClientData] writes only the [client] and [contactPersons]
    cells: every other cell is as before, no call addresses the quotations
    table (at most the two awaited queries go out), and the run is the same
    whatever the role. *)
Theorem C10_loadClientData_ignores_quotations :
  forall (W : Type) (respond : forall c : Call, W -> reply_ty c * W)
         (id role role' : option string) (w : W) (s : FClientProfile.State),
    let r := run_profile respond (FClientProfile.loadClientData id role) w s in
    other_cells (view r) = other_cells s
    /\ forallb writes_client_or_contacts (sets (trace r)) = true
    /\ forallb (fun c => negb (on_table "quotations" c)) (calls (trace r)) = true
    /\ (length (remote_calls (trace r)) <= 2)%nat
    /\ r = run_profile respond (FClientProfile.loadClientData id role') w s.
Proof.
  intros W respond id role role' w s r.
  destruct (loadClientData_frame respond id role w s) as (H1 & H2 & H3 & H4 & _).
  repeat split; try assumption.
Qed.

(** C5 (as amended).  Loading the client profile builds a quotation query
    and never sends it: no call of [loadClientData] addresses the
    [quotations] table.  [loadClientData] is its [try] block followed by
    nothing, under its [catch]; whenever neither of the two awaited
    queries rejects, the block ends, having sent exactly the client query
    and the contact query, and holding a query on [quotations] that
    filters on the client identifier and carries the filter
    [status = "approved"] exactly when the role is neither "admin" nor
    "head"; for those two roles it has no filter on [status] at all. *)
Theorem C5_quotation_query_status_filter :
  forall (W : Type) (respond : forall c : Call, W -> reply_ty c * W) (w : W)
         (id role : option string) (s : FClientProfile.State),
    let block := run_profile respond (FClientProfile.loadClientData_try id role) w s in
    run_profile respond (FClientProfile.loadClientData id role) w s
    = run_profile respond
        (try_catch
           (bind (FClientProfile.loadClientData_try id role) (fun _ => Ret tt))
           FClientProfile.loadClientData_catch)
        w s
    /\ forallb (fun c => negb (on_table "quotations" c))
         (calls (trace
                   (run_profile respond (FClientProfile.loadClientData id role)
                      w s)))
       = true
    /\ forallb (fun c => negb (on_table "quotations" c)) (calls (trace block))
       = true
    /\ (omap rejection (trace block) = [] ->
        exists q, outcome block = Returned q)
    /\ (forall q, outcome block = Returned q ->
          remote_calls (trace block)
          = [AwaitSingle (eq_ "id" (opt_value id) (from_select "clients" "*"));
             AwaitSelect
               (order_ "created_at" false
                  (eq_ "client_id" (opt_value id)
                     (from_select "contact_persons" "*")))])
    /\ (forall q, outcome block = Returned q ->
          q = FClientProfile.quotationQuery id role
          /\ q_table q = "quotations"
          /\ (In ("status", VStr "approved") (q_filters q)
              <-> role <> Some "admin" /\ role <> Some "head")
          /\ (role = Some "admin" \/ role = Some "head" ->
              q_filters q = [("client_id", opt_value id)])
          /\ (role <> Some "admin" /\ role <> Some "head" ->
              q_filters q
              = [("client_id", opt_value id); ("status", VStr "approved")])).
Proof.
  intros W respond w id role s block. subst block.
  assert (Hq : forall q,
             q = FClientProfile.quotationQuery id role ->
             q = FClientProfile.quotationQuery id role
             /\ q_table q = "quotations"
             /\ (In ("status", VStr "approved") (q_filters q)
                 <-> role <> Some "admin" /\ role <> Some "head")
             /\ (role = Some "admin" \/ role = Some "head" ->
                 q_filters q = [("client_id", opt_value id)])
             /\ (role <> Some "admin" /\ role <> Some "head" ->
                 q_filters q
                 = [("client_id", opt_value id); ("status", VStr "approved")])).
  { intros q ->. split; [reflexivity|].
    unfold FClientProfile.quotationQuery.
    pose proof (role_is_spec role "admin") as Hadm.
    pose proof (role_is_spec role "head") as Hhead.
    destruct (role_is role "admin"), (role_is role "head"); cbn;
      intuition (try discriminate; try congruence). }
  unfold run_profile, FClientProfile.loadClientData,
    FClientProfile.loadClientData_try, FClientProfile.loadClientData_catch.
  destruct s. cbn.
  reply_as respond fetched1. destruct fetched1 as [d1 e1|e1]; cbn.
  - reply_as respond listed1. destruct listed1 as [d2 e2|e2]; cbn.
    + destruct (negb (role_is role "admin") && negb (role_is role "head"))
        eqn:E; cbn;
        (split; [reflexivity|]); (split; [reflexivity|]);
        (split; [reflexivity|]); (split; [eauto|]);
        (split; [reflexivity|]);
        intros q Hret; injection Hret as <-; apply Hq;
        unfold FClientProfile.quotationQuery; rewrite E; reflexivity.
    + repeat split; try reflexivity; try discriminate.
  - repeat split; try reflexivity; try discriminate.
Qed.

Lemma C5_witness :
  exists q,
    outcome (run_profile respond_ref
               (FClientProfile.loadClientData_try (Some "c1") (Some "employee"))
               sample_world FClientProfile.initial) = Returned q
    /\ q_filters q = [("client_id", VStr "c1"); ("status", VStr "approved")].
Proof.
  destruct (C5_quotation_query_status_filter World respond_ref sample_world
              (Some "c1") (Some "employee") FClientProfile.initial)
    as (_ & _ & _ & Hend & _ & Hq).
  destruct (Hend eq_refl) as [q Hret].
  exists q. split; [exact Hret|].
  destruct (Hq q Hret) as (_ & _ & _ & _ & H).
  apply H. split; discriminate.
Defined.

(** C5 as stated fails: for a role that is neither "admin" nor "head",
    loading the client profile issues no quotation query at all, so none
    constrained to "approved" either; its only remote calls are the client
    and the contact queries. *)
Lemma C5_counterexample :
  let t := trace (run_profile respond_ref
                    (FClientProfile.loadClientData (Some "c1") (Some "employee"))
                    sample_world FClientProfile.initial) in
  List.filter (on_table "quotations") (calls t) = []
  /\ map (fun c => (on_table "clients" c, on_table "contact_persons" c))
       (remote_calls t)
     = [(true, false); (false, true)].
Proof. vm_compute. split; reflexivity. Qed.

(** ** Client profile view: which controls are rendered *)

(** C8. Whatever the rest of the view state, once the client is loaded the
    "Completed" action is rendered exactly when the role is
    "finance.employee", every contact card carries "Edit" exactly when the
    role is "finance.employee", and every document card carries the delete
    control exactly when the role is "admin" or "finance.employee"; a role
    that is neither sees none of the three.  Before the client is loaded
    only the loading placeholder is rendered. *)
Theorem C8_controls_by_role :
  forall (role : option string) (s : FClientProfile.State),
    match FClientProfile.render role s with
    | FClientProfile.LoadingClientData => FClientProfile.client s = None
    | FClientProfile.Profile v =>
        (FClientProfile.completed_shown v = true
         <-> role = Some "finance.employee")
        /\ Forall (fun c => FClientProfile.edit_shown c = true
                            <-> role = Some "finance.employee")
             (FClientProfile.contact_cards v)
        /\ Forall (fun d => FClientProfile.delete_shown d = true
                            <-> role = Some "admin"
                                \/ role = Some "finance.employee")
             (FClientProfile.document_cards v)
        /\ map FClientProfile.card_contact (FClientProfile.contact_cards v)
           = FClientProfile.contactPersons s
        /\ map FClientProfile.card_document (FClientProfile.document_cards v)
           = FClientProfile.documents s
    end.
Proof.
  intros role s. unfold FClientProfile.render.
  destruct (FClientProfile.client s) as [c|]; [|reflexivity]. cbn.
  pose proof (role_is_spec role "admin") as Hadm.
  pose proof (role_is_spec role "finance.employee") as Hfin.
  split; [exact Hfin|].
  split; [apply Forall_map, Forall_forall; intros; exact Hfin|].
  split.
  - apply Forall_map, Forall_forall. intros d _. cbn.
    rewrite orb_true_iff. tauto.
  - rewrite !map_map. cbn. split; apply map_id.
Qed.

(** ** Client profile view: the assignment check *)

Lemma role_is_false (role : option string) (lit : string) :
  role <> Some lit -> role_is role lit = false.
Proof.
  intros H. destruct (role_is role lit) eqn:E; [|reflexivity].
  apply role_is_spec in E. contradiction.
Qed.

Lemma truthy_Some (s : string) : s <> "" -> truthy (Some s) = true.
Proof. intros H. simpl. apply String.eqb_neq in H. rewrite H. reflexivity. Qed.

Lemma or_else_Some (s d : string) : s <> "" -> or_else (Some s) d = s.
Proof. intros H. simpl. apply String.eqb_neq in H. rewrite H. reflexivity. Qed.

Section CheckAssignment.
Context {W : Type} (respond : forall c : Call, W -> reply_ty c * W).
Variables (id role : option string) (user : option User).
Variables (w : W) (s : FClientProfile.State).

Let r := run_profile respond (FClientProfile.checkAssignment id role user) w s.

Lemma checkAssignment_privileged :
  role = Some "admin" \/ role = Some "finance.employee" ->
  calls (trace r) = [] /\ FClientProfile.isAssigned (view r) = true.
Proof.
  intros H. subst r. unfold run_profile, FClientProfile.checkAssignment.
  assert (E : role_is role "admin" || role_is role "finance.employee" = true).
  { apply orb_true_iff. destruct H as [H|H]; [left|right];
      apply role_is_spec; exact H. }
  rewrite E. destruct s. split; reflexivity.
Qed.

Lemma checkAssignment_missing_ids :
  role <> Some "admin" -> role <> Some "finance.employee" ->
  truthy (user_id user) = false \/ truthy id = false ->
  calls (trace r) = [] /\ FClientProfile.isAssigned (view r) = false.
Proof.
  intros Ha Hf H. subst r. unfold run_profile, FClientProfile.checkAssignment.
  rewrite (role_is_false _ _ Ha), (role_is_false _ _ Hf). cbn [orb].
  assert (E : negb (truthy (user_id user)) || negb (truthy id) = true).
  { apply orb_true_iff. destruct H as [H|H]; rewrite H; auto. }
  rewrite E. destruct s. split; reflexivity.
Qed.

Lemma checkAssignment_lookup (cid uid : string) :
  role <> Some "admin" -> role <> Some "finance.employee" ->
  user_id user = Some uid -> uid <> "" -> id = Some cid -> cid <> "" ->
  let q := FClientProfile.assignmentQuery (Some cid) uid in
  calls (trace r) =
    AwaitSingle q ::
    match fst (respond (AwaitSingle q) w) with
    | Resolved _ _ => []
    | Rejected e => [ConsoleError "Error checking assignment:" e]
    end
  /\ FClientProfile.isAssigned (view r) =
     match fst (respond (AwaitSingle q) w) with
     | Resolved data _ => bool_decide (is_Some data)
     | Rejected _ => FClientProfile.isAssigned s
     end.
Proof.
  intros Ha Hf Hu Hne Hi Hci q. subst r q.
  unfold run_profile, FClientProfile.checkAssignment.
  rewrite (role_is_false _ _ Ha), (role_is_false _ _ Hf). cbn [orb].
  rewrite Hu, Hi, (truthy_Some _ Hne), (truthy_Some _ Hci),
    (or_else_Some _ _ Hne).
  cbn. next_reply respond. destruct s.
  destruct x as [data e|e]; cbn; split; reflexivity.
Qed.

End CheckAssignment.

Lemma single_is_Some (rows : list Row) (b : bool) :
  match single rows with
  | Resolved data _ => bool_decide (is_Some data)
  | Rejected _ => b
  end = true <-> length rows = 1%nat.
Proof.
  destruct rows as [|r [|r' rows]]; cbn; split; intros H;
    try discriminate; reflexivity.
Qed.

Lemma checkAssignment_ref (id role : option string) (user : option User)
    (w : World) (s : FClientProfile.State) (cid uid : string) :
  role <> Some "admin" -> role <> Some "finance.employee" ->
  user_id user = Some uid -> uid <> "" -> id = Some cid -> cid <> "" ->
  FClientProfile.isAssigned
    (view (run_profile respond_ref
             (FClientProfile.checkAssignment id role user) w s)) = true
  <-> length (assignment_rows (backend w) cid uid) = 1%nat.
Proof.
  intros Ha Hf Hu Hne Hi Hci.
  destruct (checkAssignment_lookup respond_ref id role user w s cid uid
              Ha Hf Hu Hne Hi Hci) as [_ ->].
  cbn [respond_ref fst].
  change (eval (FClientProfile.assignmentQuery (Some cid) uid) (backend w))
    with (assignment_rows (backend w) cid uid).
  apply single_is_Some.
Qed.

(** C3 (as amended).  The assignment check makes no call and yields
    assigned when the role is "admin" or "finance.employee"; for any other
    role it makes no call and yields not assigned when the session user's
    identifier or the client identifier is missing; otherwise it makes the
    one single-row lookup on [client_assignments] for the pair and yields
    assigned exactly when that lookup returns a row (a lookup that throws is
    logged and leaves the flag as it was).  In the reference environment the
    lookup returns a row exactly when one row exists for the pair: no row,
    and also more than one row, yields not assigned. *)
Theorem C3_assignment_check :
  forall (W : Type) (respond : forall c : Call, W -> reply_ty c * W)
         (id role : option string) (user : option User)
         (w : W) (w0 : World) (s : FClientProfile.State),
    let r :=
      run_profile respond (FClientProfile.checkAssignment id role user) w s in
    (role = Some "admin" \/ role = Some "finance.employee" ->
     calls (trace r) = [] /\ FClientProfile.isAssigned (view r) = true)
    /\ (role <> Some "admin" -> role <> Some "finance.employee" ->
        truthy (user_id user) = false \/ truthy id = false ->
        calls (trace r) = [] /\ FClientProfile.isAssigned (view r) = false)
    /\ (forall cid uid : string,
          role <> Some "admin" -> role <> Some "finance.employee" ->
          user_id user = Some uid -> uid <> "" -> id = Some cid -> cid <> "" ->
          let q := FClientProfile.assignmentQuery (Some cid) uid in
          (calls (trace r) =
             AwaitSingle q ::
             match fst (respond (AwaitSingle q) w) with
             | Resolved _ _ => []
             | Rejected e => [ConsoleError "Error checking assignment:" e]
             end
           /\ FClientProfile.isAssigned (view r) =
              match fst (respond (AwaitSingle q) w) with
              | Resolved data _ => bool_decide (is_Some data)
              | Rejected _ => FClientProfile.isAssigned s
              end)
          /\ (FClientProfile.isAssigned
                (view (run_profile respond_ref
                         (FClientProfile.checkAssignment id role user) w0 s))
              = true
              <-> length (assignment_rows (backend w0) cid uid) = 1%nat)).
Proof.
  intros W respond id role user w w0 s r. split; [|split].
  - apply checkAssignment_privileged.
  - apply checkAssignment_missing_ids.
  - intros cid uid Ha Hf Hu Hne Hi Hci q. split.
    + apply checkAssignment_lookup; assumption.
    + apply checkAssignment_ref; assumption.
Qed.

Lemma C3_witness :
  FClientProfile.isAssigned
    (view (run_profile respond_ref
             (FClientProfile.checkAssignment (Some "c1") (Some "employee")
                (Some sample_user))
             sample_world FClientProfile.initial)) = true.
Proof.
  apply (proj2 (proj2 (proj2
           (C3_assignment_check World respond_ref (Some "c1") (Some "employee")
              (Some sample_user) sample_world sample_world
              FClientProfile.initial))
           "c1" "e1"
           ltac:(discriminate) ltac:(discriminate) eq_refl
           ltac:(discriminate) eq_refl ltac:(discriminate))).
  vm_compute. reflexivity.
Defined.

(** C3 as stated fails: with the assignment of [e1] to [c1] recorded
    twice, rows exist for the pair, and the check yields not assigned. *)
Lemma C3_counterexample :
  length (assignment_rows (backend doubled_assignment_world) "c1" "e1") = 2%nat
  /\ FClientProfile.isAssigned
       (view (run_profile respond_ref
                (FClientProfile.checkAssignment (Some "c1") (Some "employee")
                   (Some sample_user))
                doubled_assignment_world FClientProfile.initial)) = false.
Proof. split; vm_compute; reflexivity. Qed.

(** ** Submitting an upload with no file selected *)

(** C4 (as amended).  With no file selected, neither upload handler makes
    any call.  The standalone form sets its upload error to "Please select
    a file to upload" and changes nothing else; the profile view's handler
    returns at once: no setter runs, nothing is shown, the view state is
    untouched. *)
Theorem C4_no_file_rejected :
  forall (W : Type) (respond : forall c : Call, W -> reply_ty c * W) (w : W),
    (forall (user : option User) (s : DocumentsUpload.State),
        DocumentsUpload.file (DocumentsUpload.documentData s) = None ->
        let r := run_upload respond (DocumentsUpload.handleSubmit user s) w s in
        calls (trace r) = []
        /\ sets (trace r)
           = [DocumentsUpload.setUploadError
                (Some "Please select a file to upload")]
        /\ DocumentsUpload.uploadError (view r)
           = Some "Please select a file to upload"
        /\ view r
           = DocumentsUpload.apply
               (DocumentsUpload.setUploadError
                  (Some "Please select a file to upload")) s
        /\ world r = w)
    /\ (forall (id : option string) (user : option User)
               (s : FClientProfile.State),
          FClientProfile.file (FClientProfile.newDocument s) = None ->
          run_profile respond (FClientProfile.handleUploadDocument id user s) w s
          = mkRun [] (Returned tt) w s).
Proof.
  intros W respond w. split.
  - intros user s H. unfold run_upload, DocumentsUpload.handleSubmit.
    rewrite H. destruct s. repeat split; reflexivity.
  - intros id user s H.
    unfold run_profile, FClientProfile.handleUploadDocument.
    rewrite H. reflexivity.
Qed.

Lemma C4_witness :
  DocumentsUpload.uploadError
    (view (run_upload respond_ref
             (DocumentsUpload.handleSubmit (Some sample_user)
                DocumentsUpload.initial)
             sample_world DocumentsUpload.initial))
  = Some "Please select a file to upload"
  /\ run_profile respond_ref
       (FClientProfile.handleUploadDocument (Some "c1") (Some sample_user)
          FClientProfile.initial)
       sample_world FClientProfile.initial
     = mkRun [] (Returned tt) sample_world FClientProfile.initial.
Proof.
  split.
  - apply (proj1 (C4_no_file_rejected World respond_ref sample_world)
             (Some sample_user) DocumentsUpload.initial eq_refl).
  - apply (proj2 (C4_no_file_rejected World respond_ref sample_world)
             (Some "c1") (Some sample_user) FClientProfile.initial eq_refl).
Defined.

(** C4 as stated fails for the profile view: submitting its upload form
    with no file selected shows no message at all. *)
Lemma C4_counterexample :
  let r := run_profile respond_ref
             (FClientProfile.handleUploadDocument (Some "c1") (Some sample_user)
                FClientProfile.initial)
             sample_world FClientProfile.initial in
  FClientProfile.file (FClientProfile.newDocument FClientProfile.initial) = None
  /\ ~ In "Please select a file to upload" (alerts (trace r))
  /\ trace r = []
  /\ view r = FClientProfile.initial.
Proof. cbn. repeat split. intros []. Qed.

(** ** Client profile view: the send actions *)

Lemma prefix_app (p rest : string) : String.prefix p (p ++ rest) = true.
Proof.
  induction p as [|c p IH]; simpl.
  - destruct rest; reflexivity.
  - destruct (Ascii.ascii_dec c c) as [_|N]; [exact IH|contradiction].
Qed.

Lemma hex_digits_unreserved (c : Ascii.ascii) :
  uri_unreserved (hex_digit (Ascii.nat_of_ascii c / 16)) = true
  /\ uri_unreserved (hex_digit (Ascii.nat_of_ascii c mod 16)) = true.
Proof.
  destruct c as [[] [] [] [] [] [] [] []]; vm_compute; split; reflexivity.
Qed.

Lemma encodeURIComponent_safe (s : string) :
  forallb uri_safe (String.list_ascii_of_string (encodeURIComponent s)) = true.
Proof.
  induction s as [|c s IH]; [reflexivity|].
  cbn [encodeURIComponent]. destruct (uri_unreserved c) eqn:E.
  - cbn [String.list_ascii_of_string forallb]. unfold uri_safe at 1.
    rewrite E, IH. reflexivity.
  - destruct (hex_digits_unreserved c) as [H1 H2].
    cbn [String.list_ascii_of_string forallb]. unfold uri_safe at 1 2 3.
    rewrite H1, H2, IH. reflexivity.
Qed.

(** C9 (as amended).  Both send actions make exactly one call, opening a
    window on a Gmail compose link
    [https://mail.google.com/mail/?view=cm&fs=1&to=..&su=..&body=..]
    (not a [mailto:] link): no remote call is made and no view state
    changes.  The subject and the body are passed through
    [encodeURIComponent], so they contain only unreserved characters and
    percent escapes.  Before encoding, the document's subject is its file
    name after "Document: " and its body gives the document type and the
    description ("N/A" when it is empty); the quotation's subject is its
    number between "Quotation #" and " Details" and its body gives the
    amount, the two validity dates, the description and one line per asset
    with its quantity; both bodies end with the sender's name (or "Your
    Representative") and email. *)
Theorem C9_send_actions_open_compose_link :
  forall (W : Type) (respond : forall c : Call, W -> reply_ty c * W) (w : W)
         (s : FClientProfile.State) (user : option User)
         (numberText : Z -> string) (toLocaleDateString : Value -> string)
         (doc : Row) (quotationData : FClientProfile.QuotationData)
         (to : string),
    let sent := run_profile respond
                  (FClientProfile.handleSendDocument user numberText doc to)
                  w s in
    let mailed := run_profile respond
                    (FClientProfile.handleSendEmail user numberText
                       toLocaleDateString to quotationData) w s in
    let su1 := encodeURIComponent (FClientProfile.documentSubject numberText doc) in
    let body1 :=
      encodeURIComponent (FClientProfile.documentBody user numberText doc) in
    let su2 :=
      encodeURIComponent
        (FClientProfile.quotationSubject numberText quotationData) in
    let body2 :=
      encodeURIComponent
        (FClientProfile.quotationBody user numberText toLocaleDateString
           quotationData) in
    let closing :=
      "Best regards," ++ nl ++
      or_else (FClientProfile.user_full_name user) "Your Representative" ++
      nl ++ or_else (FClientProfile.user_email user) "" in
    (calls (trace sent) = [WindowOpen (FClientProfile.composeUrl to su1 body1)]
     /\ calls (trace mailed)
        = [WindowOpen (FClientProfile.composeUrl to su2 body2)])
    /\ (remote_calls (trace sent) = [] /\ remote_calls (trace mailed) = [])
    /\ (sets (trace sent) = [] /\ sets (trace mailed) = []
        /\ view sent = s /\ view mailed = s)
    /\ (forall subject body,
          starts_with "https://mail.google.com/mail/?view=cm&fs=1&to="
            (FClientProfile.composeUrl to subject body) = true
          /\ starts_with "mailto:" (FClientProfile.composeUrl to subject body)
             = false
          /\ FClientProfile.composeUrl to subject body
             = "https://mail.google.com/mail/?view=cm&fs=1&to=" ++ to ++
               "&su=" ++ subject ++ "&body=" ++ body)
    /\ Forall (fun x => forallb uri_safe (String.list_ascii_of_string x) = true)
         [su1; body1; su2; body2]
    /\ FClientProfile.documentSubject numberText doc
       = "Document: " ++ show numberText (field doc "file_name")
    /\ FClientProfile.documentBody user numberText doc
       = "Dear Client," ++ nl ++ nl ++
         "Please find attached the document you requested." ++ nl ++ nl ++
         "Document Type: " ++ show numberText (field doc "document_type") ++ nl ++
         "Description: " ++
         (if truthy_value (field doc "description")
          then show numberText (field doc "description") else "N/A") ++
         nl ++ nl ++ closing
    /\ FClientProfile.quotationSubject numberText quotationData
       = "Quotation #" ++
         splice numberText (FClientProfile.qd_id quotationData) ++ " Details"
    /\ FClientProfile.quotationBody user numberText toLocaleDateString
         quotationData
       = "Dear Client," ++ nl ++ nl ++
         "Please find below the document:" ++ nl ++ nl ++
         "Amount: " ++ FClientProfile.rupee ++
         splice numberText (FClientProfile.qd_amount quotationData) ++ "/-" ++
         nl ++
         "Valid From: " ++
         toLocaleDateString (FClientProfile.qd_start_date quotationData) ++ nl ++
         "Valid Until: " ++
         toLocaleDateString (FClientProfile.qd_end_date quotationData) ++ nl ++
         "Description: " ++
         splice numberText (FClientProfile.qd_description quotationData) ++
         nl ++ nl ++
         "Assets Included:" ++ nl ++
         String.concat nl
           (map (fun asset =>
                   "- " ++ splice numberText (FClientProfile.asset_item asset) ++
                   " (Qty: " ++
                   splice numberText (FClientProfile.asset_quantity asset) ++
                   ")")
              (FClientProfile.quotation_assets quotationData)) ++
         nl ++ nl ++ closing
    /\ (forall n : Z,
          - 9007199254740991 <= n <= 9007199254740991 ->
          show numberText (VNum n) = show_Z n)
    /\ String.list_ascii_of_string FClientProfile.rupee
       = map Ascii.ascii_of_nat [226; 130; 185]%nat.
Proof.
  intros. subst sent mailed su1 body1 su2 body2 closing.
  repeat split; try reflexivity.
  - apply prefix_app.
  - repeat constructor; apply encodeURIComponent_safe.
  - intros n Hn. cbn. unfold safe_integer.
    destruct (Z.leb_spec (Z.abs n) 9007199254740991); [reflexivity|lia].
Qed.

Lemma C9_witness :
  show (fun _ => "1e+21") (VNum 1500) = "1500"
  /\ show (fun _ => "1e+21") (VNum (10 ^ 21)) = "1e+21".
Proof.
  split; [|reflexivity].
  destruct (C9_send_actions_open_compose_link World respond_ref sample_world
              FClientProfile.initial (Some sample_user) (fun _ => "1e+21")
              (fun _ => "1/4/2026") sample_document sample_quotation
              "buyer@client.example")
    as (_ & _ & _ & _ & _ & _ & _ & _ & _ & H & _).
  rewrite (H 1500) by lia. reflexivity.
Defined.

(** C9 as stated fails: the link opened for a document is not a [mailto:]
    link. *)
Lemma C9_counterexample :
  exists url : string,
    calls (trace (run_profile respond_ref
                    (FClientProfile.handleSendDocument (Some sample_user)
                       show_Z sample_document "buyer@client.example")
                    sample_world FClientProfile.initial))
    = [WindowOpen url]
    /\ starts_with "mailto:" url = false
    /\ starts_with "https://mail.google.com/mail/" url = true.
Proof. eexists. split; [reflexivity|]. split; vm_compute; reflexivity. Qed.

(** ** Document upload form: the client list *)

#[global] Instance value_leb_total : Total (fun a b => value_leb a b = true).
Proof.
  intros a b. destruct a as [| |x|x], b as [| |y|y]; cbn; auto.
  - apply String.leb_total.
  - destruct (Z.leb_spec x y); [auto|]. right. apply Z.leb_le. lia.
Qed.

#[global] Instance row_le_total col : Total (row_le col).
Proof. intros r1 r2. apply value_leb_total. Qed.

Lemma row_matches_one (col : string) (v : Value) (r : Row) :
  row_matches [(col, v)] r = true <-> r !! col = Some v.
Proof.
  unfold row_matches. cbn. rewrite andb_true_r. apply bool_decide_eq_true.
Qed.

Lemma eval_clientsQuery (b : Backend) :
  eval DocumentsUpload.clientsQuery b
  = merge_sort (row_le "name")
      (List.filter (row_matches [("status", VStr "ecomplete")])
         (table b "clients")).
Proof. reflexivity. Qed.

Lemma In_eval_clientsQuery (b : Backend) (row : Row) :
  In row (eval DocumentsUpload.clientsQuery b)
  <-> In row (table b "clients") /\ row !! "status" = Some (VStr "ecomplete").
Proof.
  rewrite eval_clientsQuery, <- !list_elem_of_In, merge_sort_Permutation,
    !list_elem_of_In, filter_In, row_matches_one.
  reflexivity.
Qed.

Lemma fetchClients_ref (w : World) (s : DocumentsUpload.State) :
  let r := run_upload respond_ref DocumentsUpload.fetchClients w s in
  DocumentsUpload.clients (view r)
  = eval DocumentsUpload.clientsQuery (backend w)
  /\ world r = w.
Proof. destruct s. split; reflexivity. Qed.

Lemma table_with_table (b : Backend) (t : string) (rows : list Row) :
  table (with_table b t rows) t = rows.
Proof. unfold table, with_table. cbn. rewrite lookup_insert_eq. reflexivity. Qed.

Lemma handleStatusUpdate_ref (w : World) (id role : option string)
    (s0 s : FClientProfile.State) (newStatus : string) :
  backend (world (run_profile respond_ref
                    (FClientProfile.handleStatusUpdate id role s0 newStatus) w s))
  = update_rows "clients" {[ "status" := VStr newStatus ]}
      [("id", opt_value id)] (backend w).
Proof.
  unfold run_profile, FClientProfile.handleStatusUpdate,
    FClientProfile.loadClientData. cbn.
  match goal with |- context [single ?l] => destruct l as [|r0 [|r1 l0]] end;
    cbn; reflexivity.
Qed.

Lemma updated_status (b : Backend) (cid newStatus : string) (row : Row) :
  In row (table (update_rows "clients" {[ "status" := VStr newStatus ]}
                   [("id", VStr cid)] b) "clients") ->
  row !! "id" = Some (VStr cid) ->
  row !! "status" = Some (VStr newStatus).
Proof.
  unfold update_rows. rewrite table_with_table, in_map_iff.
  intros (r & <- & _) Hid.
  destruct (row_matches [("id", VStr cid)] r) eqn:E.
  - unfold patched. apply lookup_union_Some_l, lookup_singleton_eq.
  - apply row_matches_one in Hid. congruence.
Qed.

(** C6. The standalone upload form's only remote call on mount is the
    query on [clients] with the single filter [status = "ecomplete"]
    ordered by [name] ascending.  In the reference environment the list it
    shows is exactly the client rows with that status, in ascending name
    order; a row whose status is "completed" is not listed, and after the
    profile view's status update of a client (which writes "completed") no
    listed row carries that client's identifier. *)
Theorem C6_client_list_filter :
  DocumentsUpload.clientsQuery
  = {| q_table := "clients"; q_columns := "id, name";
       q_filters := [("status", VStr "ecomplete")];
       q_order := Some ("name", true) |}
  /\ (forall (W : Type) (respond : forall c : Call, W -> reply_ty c * W) (w : W)
             (s : DocumentsUpload.State),
        remote_calls
          (trace (run_upload respond DocumentsUpload.fetchClients w s))
        = [AwaitSelect DocumentsUpload.clientsQuery])
  /\ (forall (w : World) (s : DocumentsUpload.State),
        let listed :=
          DocumentsUpload.clients
            (view (run_upload respond_ref DocumentsUpload.fetchClients w s)) in
        (forall row : Row,
            In row listed
            <-> In row (table (backend w) "clients")
                /\ row !! "status" = Some (VStr "ecomplete"))
        /\ Sorted (row_le "name") listed
        /\ (forall row : Row,
              row !! "status" = Some (VStr "completed") -> ~ In row listed))
  /\ (forall (w : World) (role : option string) (cid : string)
             (s0 : FClientProfile.State) (s : DocumentsUpload.State),
        let w1 :=
          world (run_profile respond_ref
                   (FClientProfile.handleStatusUpdate (Some cid) role s0
                      "completed") w s0) in
        forall row : Row,
          In row (DocumentsUpload.clients
                    (view (run_upload respond_ref
                             DocumentsUpload.fetchClients w1 s))) ->
          row !! "id" <> Some (VStr cid)).
Proof.
  split; [reflexivity|]. split; [|split].
  - intros W respond w s.
    unfold run_upload, DocumentsUpload.fetchClients. cbn.
    next_reply respond. settle_reply x; reflexivity.
  - intros w s listed. subst listed.
    destruct (fetchClients_ref w s) as [-> _]. split; [|split].
    + apply In_eval_clientsQuery.
    + rewrite eval_clientsQuery. apply Sorted_merge_sort; apply _.
    + intros row Hst Hin. apply In_eval_clientsQuery in Hin as [_ Hin].
      rewrite Hst in Hin. discriminate Hin.
  - intros w role cid s0 s w1 row Hin Hid. subst w1.
    destruct (fetchClients_ref
                (world (run_profile respond_ref
                          (FClientProfile.handleStatusUpdate (Some cid) role s0
                             "completed") w s0)) s) as [E _].
    rewrite E in Hin. clear E.
    apply In_eval_clientsQuery in Hin as [Hin Hst].
    rewrite handleStatusUpdate_ref in Hin.
    pose proof (updated_status _ _ _ _ Hin Hid) as Hc.
    rewrite Hst in Hc. discriminate Hc.
Qed.

(** ** Client profile view: deleting a document *)

Ltac leaf :=
  repeat split; cbn;
  try reflexivity;
  try (eexists; reflexivity);
  try (eexists; split; reflexivity);
  try (intros; congruence);
  try (intros; discriminate);
  try match goal with
      | |- Returned ?u = Returned tt => destruct u; reflexivity
      end;
  try done.

Section DeleteDocument.
Context {W : Type} (respond : forall c : Call, W -> reply_ty c * W).
Variables (id : option string) (documentId filePath : string).
Variables (w : W) (s0 s : FClientProfile.State).

Let r := run_profile respond
           (FClientProfile.handleDeleteDocument id s0 documentId filePath) w s.

Lemma handleDeleteDocument_history :
  remote_calls (trace r)
    `prefix_of` [AwaitRemove "documents" [filePath];
                 AwaitDelete "documents" [("id", VStr documentId)];
                 AwaitSelect (FClientProfile.documentsQuery id)]
  /\ (removal_errors (trace r) <> [] ->
      forallb (fun c => negb (on_table "documents" c)) (calls (trace r)) = true)
  /\ console_errors (trace r) = omap failure (trace r)
  /\ alerts (trace r) = []
  /\ outcome r = Returned tt
  /\ (confirmations (trace r) = [false] ->
      remote_calls (trace r) = [] /\ view r = s)
  /\ (confirmations (trace r) = [true] -> omap failure (trace r) = [] ->
      remote_calls (trace r)
      = [AwaitRemove "documents" [filePath];
         AwaitDelete "documents" [("id", VStr documentId)];
         AwaitSelect (FClientProfile.documentsQuery id)]
      /\ exists data,
          selected (trace r) = [data]
          /\ FClientProfile.documents (view r) = default [] data).
Proof.
  subst r. unfold run_profile, FClientProfile.handleDeleteDocument,
    FClientProfile.loadDocuments. destruct s. cbn.
  next_reply respond. destruct x; cbn; [|leaf].
  next_reply respond. settle_reply x; [leaf| |leaf].
  next_reply respond. settle_reply x; [leaf| |leaf].
  next_reply respond. settle_reply x; leaf.
Qed.

End DeleteDocument.

Lemma deleted_rows_gone (b : Backend) (t : string) (documentId : string)
    (row : Row) :
  In row (table (delete_rows t [("id", VStr documentId)] b) t) ->
  In row (table b t) /\ row !! "id" <> Some (VStr documentId).
Proof.
  unfold delete_rows. rewrite table_with_table, filter_In.
  intros [Hin Hm]. split; [exact Hin|]. intros Hid.
  apply row_matches_one in Hid. rewrite Hid in Hm. discriminate Hm.
Qed.

Lemma handleDeleteDocument_ref (w : World) (id : option string)
    (s0 s : FClientProfile.State) (documentId filePath : string) :
  confirm_answer (browser w) = true ->
  let r := run_profile respond_ref
             (FClientProfile.handleDeleteDocument id s0 documentId filePath)
             w s in
  (forall row : Row,
      In row (FClientProfile.documents (view r)) ->
      row !! "id" <> Some (VStr documentId))
  /\ (forall row : Row,
        In row (table (backend (world r)) "documents") ->
        row !! "id" <> Some (VStr documentId))
  /\ ~ In ("documents", filePath) (objects (backend (world r)))
  /\ omap failure (trace r) = [].
Proof.
  intros Hc. unfold run_profile, FClientProfile.handleDeleteDocument,
    FClientProfile.loadDocuments. destruct s. cbn. rewrite Hc. cbn.
  split; [|split; [|split; [|reflexivity]]].
  - intros row Hin.
    rewrite <- list_elem_of_In, merge_sort_Permutation, list_elem_of_In,
      filter_In in Hin.
    destruct Hin as [Hin _]. apply deleted_rows_gone in Hin. tauto.
  - intros row Hin. apply deleted_rows_gone in Hin. tauto.
  - rewrite filter_In. cbn. rewrite String.eqb_refl. cbn.
    intros [_ H]. discriminate H.
Qed.

(** C1. Deleting a document from the profile view, once confirmed, calls
    the backend in this order and stops at the first failure: remove the
    stored object, delete the [documents] row, reload the document list.
    If the storage removal fails no call on the [documents] table is made.
    Every failure is written to the console and none is shown in an alert.
    When nothing fails all three calls are made and the list shown becomes
    the reloaded one; in the reference environment the stored object and
    the row are then gone and no listed document carries the deleted
    identifier.  Declining the confirmation makes no remote call and
    leaves the view as it was. *)
Theorem C1_delete_document :
  forall (W : Type) (respond : forall c : Call, W -> reply_ty c * W)
         (id : option string) (documentId filePath : string)
         (w : W) (w0 : World) (s0 s : FClientProfile.State),
    let p := FClientProfile.handleDeleteDocument id s0 documentId filePath in
    let r := run_profile respond p w s in
    let r0 := run_profile respond_ref p w0 s in
    remote_calls (trace r)
      `prefix_of` [AwaitRemove "documents" [filePath];
                   AwaitDelete "documents" [("id", VStr documentId)];
                   AwaitSelect (FClientProfile.documentsQuery id)]
    /\ (removal_errors (trace r) <> [] ->
        forallb (fun c => negb (on_table "documents" c)) (calls (trace r))
        = true)
    /\ console_errors (trace r) = omap failure (trace r)
    /\ alerts (trace r) = []
    /\ outcome r = Returned tt
    /\ (confirmations (trace r) = [false] ->
        remote_calls (trace r) = [] /\ view r = s)
    /\ (confirmations (trace r) = [true] -> omap failure (trace r) = [] ->
        remote_calls (trace r)
        = [AwaitRemove "documents" [filePath];
           AwaitDelete "documents" [("id", VStr documentId)];
           AwaitSelect (FClientProfile.documentsQuery id)]
        /\ exists data,
            selected (trace r) = [data]
            /\ FClientProfile.documents (view r) = default [] data)
    /\ (confirm_answer (browser w0) = true ->
        (forall row : Row,
            In row (FClientProfile.documents (view r0)) ->
            row !! "id" <> Some (VStr documentId))
        /\ (forall row : Row,
              In row (table (backend (world r0)) "documents") ->
              row !! "id" <> Some (VStr documentId))
        /\ ~ In ("documents", filePath) (objects (backend (world r0)))
        /\ omap failure (trace r0) = []).
Proof.
  intros W respond id documentId filePath w w0 s0 s p r r0.
  pose proof (handleDeleteDocument_history respond id documentId filePath
                w s0 s) as H.
  cbv zeta in H. destruct H as (H1 & H2 & H3 & H4 & H5 & H6 & H7).
  repeat (split; [assumption|]).
  apply handleDeleteDocument_ref.
Qed.

Lemma C1_witness :
  let p := FClientProfile.handleDeleteDocument (Some "c1")
             FClientProfile.initial "d1" "e1/1700.pdf" in
  let r0 := run_profile respond_ref p sample_world FClientProfile.initial in
  let r1 := run_profile respond_storage_refuses p sample_world
              FClientProfile.initial in
  (length (FClientProfile.documents (view r0)) = 1%nat
   /\ (forall row : Row,
          In row (FClientProfile.documents (view r0)) ->
          row !! "id" <> Some (VStr "d1"))
   /\ ~ In ("documents", "e1/1700.pdf") (objects (backend (world r0))))
  /\ (removal_errors (trace r1) = [ErrorInstance "Object not found"]
      /\ forallb (fun c => negb (on_table "documents" c)) (calls (trace r1))
         = true
      /\ console_errors (trace r1) = [ErrorInstance "Object not found"]).
Proof.
  split.
  - pose proof (C1_delete_document World respond_ref (Some "c1") "d1"
                  "e1/1700.pdf" sample_world sample_world
                  FClientProfile.initial FClientProfile.initial) as H.
    cbv zeta in H.
    destruct H as (_ & _ & _ & _ & _ & _ & _ & H).
    destruct (H eq_refl) as (Hrows & _ & Hobj & _).
    split; [vm_compute; reflexivity|]. split; assumption.
  - pose proof (C1_delete_document World respond_storage_refuses (Some "c1")
                  "d1" "e1/1700.pdf" sample_world sample_world
                  FClientProfile.initial FClientProfile.initial) as H.
    cbv zeta in H.
    destruct H as (_ & Hno & Hlog & _).
    split; [reflexivity|]. split.
    + apply Hno. discriminate.
    + rewrite Hlog. reflexivity.
Defined.

(** ** Client profile view: uploading a document *)


Section UploadDocument.
Context {W : Type} (respond : forall c : Call, W -> reply_ty c * W).
Variables (id : option string) (user : option User).
Variables (w : W) (s0 s : FClientProfile.State).
Variables (f : File) (uid : string).
Hypothesis file_selected :
  FClientProfile.file (FClientProfile.newDocument s0) = Some f.
Hypothesis session_user : user_id user = Some uid.
Hypothesis session_user_id : uid <> "".

Local Arguments FClientProfile.has_documents_bucket : simpl never.
Local Arguments FClientProfile.uploadPath : simpl never.
Local Arguments FClientProfile.documentRow : simpl never.

Let r := run_profile respond (FClientProfile.handleUploadDocument id user s0) w s.


End UploadDocument.




Lemma C6_witness :
  let listed :=
    DocumentsUpload.clients
      (view (run_upload respond_ref DocumentsUpload.fetchClients sample_world
               DocumentsUpload.initial)) in
  map (fun row => field row "name") listed = [VStr "Borealis"; VStr "Zenith"]
  /\ ~ In (list_to_map [("id", VStr "c2"); ("name", VStr "Acme");
                        ("status", VStr "completed")] : Row) listed.
Proof.
  split; [vm_compute; reflexivity|].
  destruct C6_client_list_filter as (_ & _ & H & _).
  destruct (H sample_world DocumentsUpload.initial) as (_ & _ & Hc).
  apply Hc. vm_compute. reflexivity.
Defined.

(** * Further properties *)

(** ** Programs in general *)

Section Structure.
Context {W S U : Type}.
Variable respond : forall c : Call, W -> reply_ty c * W.
Variable apply : U -> S -> S.

Lemma never_throws_run {R} (p : Prog U R) (w : W) (s : S) :
  never_throws p -> exists v, outcome (run respond apply p w s) = Returned v.
Proof.
  revert w s. induction p as [v|e|c k IH|u k IH]; intros w s Hp; cbn in *.
  - eauto.
  - contradiction.
  - apply IH, Hp.
  - apply IH, Hp.
Qed.

Lemma every_call_run {R} (P : Call -> bool) (p : Prog U R) (w : W) (s : S) :
  every_call P p -> forallb P (calls (trace (run respond apply p w s))) = true.
Proof.
  revert w s. induction p as [v|e|c k IH|u k IH]; intros w s Hp; cbn in *.
  - reflexivity.
  - reflexivity.
  - destruct Hp as [Hc Hk]. rewrite Hc. cbn. apply IH, Hk.
  - apply IH, Hp.
Qed.

Lemma run_finally_set {R} (p : Prog U R) (u : U) (w : W) (s : S) :
  run respond apply (finally p (set u)) w s
  = let r := run respond apply p w s in
    mkRun (trace r ++ [EvSet u]) (outcome r) (world r) (apply u (view r)).
Proof.
  revert w s. induction p as [v|e|c k IH|u' k IH]; intros w s; cbn.
  - reflexivity.
  - reflexivity.
  - rewrite IH. reflexivity.
  - rewrite IH. reflexivity.
Qed.

End Structure.

Lemma never_throws_bind {U A B} (p : Prog U A) (f : A -> Prog U B) :
  never_throws p -> (forall a, never_throws (f a)) -> never_throws (bind p f).
Proof.
  induction p as [v|e|c k IH|u k IH]; cbn; intros Hp Hf; auto.
Qed.

Lemma never_throws_try_catch {U A} (p : Prog U A) (h : JsError -> Prog U A) :
  (forall e, never_throws (h e)) -> never_throws (try_catch p h).
Proof. induction p as [v|e|c k IH|u k IH]; cbn; intros Hh; auto. Qed.

Lemma never_throws_finally {U A} (p : Prog U A) (f : Prog U unit) :
  never_throws p -> never_throws f -> never_throws (finally p f).
Proof.
  induction p as [v|e|c k IH|u k IH]; cbn; intros Hp Hf.
  - apply never_throws_bind; cbn; auto.
  - destruct Hp.
  - intros x. apply IH; auto.
  - apply IH; auto.
Qed.

Lemma every_call_bind {U A B} P (p : Prog U A) (f : A -> Prog U B) :
  every_call P p -> (forall a, every_call P (f a)) -> every_call P (bind p f).
Proof.
  induction p as [v|e|c k IH|u k IH]; cbn; intros Hp Hf; auto.
  destruct Hp as [Hc Hk]. split; auto.
Qed.

Lemma every_call_try_catch {U A} P (p : Prog U A) (h : JsError -> Prog U A) :
  every_call P p -> (forall e, every_call P (h e)) ->
  every_call P (try_catch p h).
Proof.
  induction p as [v|e|c k IH|u k IH]; cbn; intros Hp Hh; auto.
  destruct Hp as [Hc Hk]. split; auto.
Qed.

Lemma every_call_finally {U A} P (p : Prog U A) (f : Prog U unit) :
  every_call P p -> every_call P f -> every_call P (finally p f).
Proof.
  induction p as [v|e|c k IH|u k IH]; cbn; intros Hp Hf; auto.
  - apply every_call_bind; cbn; auto.
  - apply every_call_bind; cbn; auto.
  - destruct Hp as [Hc Hk]. split; auto.
Qed.

(** ** No handler rejects *)

Ltac catches_all :=
  cbn [mbind Prog_bind bind set call never_throws];
  repeat first
    [ apply never_throws_finally
    | apply never_throws_try_catch
    | progress (intros; cbn [never_throws]) ];
  cbn; auto.

Lemma loadClientData_never_throws id role :
  never_throws (FClientProfile.loadClientData id role).
Proof. unfold FClientProfile.loadClientData. catches_all. Qed.

Lemma loadDocuments_never_throws id :
  never_throws (FClientProfile.loadDocuments id).
Proof. unfold FClientProfile.loadDocuments. catches_all. Qed.

Lemma loadAssets_never_throws : never_throws FClientProfile.loadAssets.
Proof. unfold FClientProfile.loadAssets. catches_all. Qed.

Lemma checkAssignment_never_throws id role user :
  never_throws (FClientProfile.checkAssignment id role user).
Proof. unfold FClientProfile.checkAssignment. catches_all. Qed.

Lemma handleAddContact_never_throws id role s :
  never_throws (FClientProfile.handleAddContact id role s).
Proof. unfold FClientProfile.handleAddContact. catches_all. Qed.

Lemma handleUpdateContact_never_throws id role s :
  never_throws (FClientProfile.handleUpdateContact id role s).
Proof. unfold FClientProfile.handleUpdateContact. catches_all. Qed.

Lemma handleStatusUpdate_never_throws id role s st :
  never_throws (FClientProfile.handleStatusUpdate id role s st).
Proof. unfold FClientProfile.handleStatusUpdate. catches_all. Qed.

Lemma handleUploadDocument_never_throws id user s :
  never_throws (FClientProfile.handleUploadDocument id user s).
Proof.
  unfold FClientProfile.handleUploadDocument.
  destruct (FClientProfile.file (FClientProfile.newDocument s));
    destruct (truthy (user_id user)); cbn [never_throws]; auto.
  catches_all. intros _. destruct e; cbn; auto.
Qed.

Lemma handleDeleteDocument_never_throws id s d p :
  never_throws (FClientProfile.handleDeleteDocument id s d p).
Proof.
  unfold FClientProfile.handleDeleteDocument.
  cbn [mbind Prog_bind bind call never_throws].
  intros []; cbn [negb never_throws]; auto. catches_all.
Qed.

Lemma fetchClients_never_throws : never_throws DocumentsUpload.fetchClients.
Proof. unfold DocumentsUpload.fetchClients. catches_all. Qed.

Lemma handleSubmit_never_throws user s :
  never_throws (DocumentsUpload.handleSubmit user s).
Proof.
  unfold DocumentsUpload.handleSubmit.
  destruct (DocumentsUpload.file (DocumentsUpload.documentData s));
    catches_all.
Qed.

(** X1. Whatever the environment answers, none of the asynchronous
    handlers of the profile view and of the upload form rejects: each one
    returns normally, every failure having been caught inside it. *)
Theorem handlers_never_reject :
  forall (W : Type) (respond : forall c : Call, W -> reply_ty c * W) (w : W)
         (id role : option string) (user : option User) (newStatus d p : string)
         (s0 s : FClientProfile.State) (u0 u : DocumentsUpload.State),
    Forall (fun h => outcome (run_profile respond h w s) = Returned tt)
      [FClientProfile.loadClientData id role;
       FClientProfile.loadDocuments id;
       FClientProfile.loadAssets;
       FClientProfile.checkAssignment id role user;
       FClientProfile.handleAddContact id role s0;
       FClientProfile.handleUpdateContact id role s0;
       FClientProfile.handleStatusUpdate id role s0 newStatus;
       FClientProfile.handleUploadDocument id user s0;
       FClientProfile.handleDeleteDocument id s0 d p]
    /\ Forall (fun h => outcome (run_upload respond h w u) = Returned tt)
         [DocumentsUpload.fetchClients; DocumentsUpload.handleSubmit user u0].
Proof.
  intros.
  assert (Hp : forall h, never_throws h ->
                         outcome (run_profile respond h w s) = Returned tt).
  { intros h Hh.
    destruct (never_throws_run respond FClientProfile.apply h w s Hh)
      as [[] E]. exact E. }
  assert (Hu : forall h, never_throws h ->
                         outcome (run_upload respond h w u) = Returned tt).
  { intros h Hh.
    destruct (never_throws_run respond DocumentsUpload.apply h w u Hh)
      as [[] E]. exact E. }
  split; repeat constructor; (apply Hp || apply Hu);
    auto using loadClientData_never_throws, loadDocuments_never_throws,
      loadAssets_never_throws, checkAssignment_never_throws,
      handleAddContact_never_throws, handleUpdateContact_never_throws,
      handleStatusUpdate_never_throws, handleUploadDocument_never_throws,
      handleDeleteDocument_never_throws, fetchClients_never_throws,
      handleSubmit_never_throws.
Qed.

(** ** Loading never writes *)

Ltac walk :=
  cbn;
  repeat match goal with
         | |- _ /\ _ => split
         | |- True => exact I
         | |- ?a = ?a => reflexivity
         | |- context [settle ?x] => destruct x as [? [?|]|?]; cbn
         | |- context [if ?b then _ else _] => destruct b; cbn
         | |- forall _, _ => intro
         end.

(** X2. The loaders only read: for every environment, no call made by
    [loadClientData], [loadDocuments], [loadAssets], [checkAssignment] or
    the upload form's [fetchClients] is a database write or a storage
    write. *)
Theorem loaders_only_read :
  forall (W : Type) (respond : forall c : Call, W -> reply_ty c * W) (w : W)
         (id role : option string) (user : option User)
         (s : FClientProfile.State) (u : DocumentsUpload.State),
    Forall (fun h =>
              forallb (fun c => negb (is_write c))
                (calls (trace (run_profile respond h w s))) = true)
      [FClientProfile.loadClientData id role;
       FClientProfile.loadDocuments id;
       FClientProfile.loadAssets;
       FClientProfile.checkAssignment id role user]
    /\ forallb (fun c => negb (is_write c))
         (calls (trace (run_upload respond DocumentsUpload.fetchClients w u)))
       = true.
Proof.
  intros. split; [repeat constructor|]; apply every_call_run.
  - unfold FClientProfile.loadClientData. walk.
  - unfold FClientProfile.loadDocuments. walk.
  - unfold FClientProfile.loadAssets. walk.
  - unfold FClientProfile.checkAssignment. walk.
  - unfold DocumentsUpload.fetchClients. walk.
Qed.

(** ** The busy flags are always put back *)

Lemma loading_after_setLoading l s :
  FClientProfile.loading (FClientProfile.apply (FClientProfile.setLoading l) s)
  = l.
Proof. destruct s. reflexivity. Qed.

Ltac to_finally :=
  cbn [mbind Prog_bind bind set call run logged view trace];
  rewrite run_finally_set; cbn [view logged].

(** X3. Each handler that raises a busy flag puts it back before it
    returns, whatever the environment answers.  The profile view's handlers
    write the [loading] record they captured with the one flag cleared; a
    delete that was confirmed and an upload with a file and a session user
    do the same for the document flag; [loadDocuments] clears the document
    flag and leaves the other three flags alone; the upload form clears
    [isUploading] after a submit with a file, and [loadingClients] after
    fetching the clients. *)
Theorem busy_flags_are_reset :
  forall (W : Type) (respond : forall c : Call, W -> reply_ty c * W) (w : W)
         (id role : option string) (user : option User) (newStatus d p : string)
         (s0 s : FClientProfile.State) (u0 u : DocumentsUpload.State),
    let after h := FClientProfile.loading (view (run_profile respond h w s)) in
    after (FClientProfile.handleAddContact id role s0)
    = FClientProfile.with_contact (FClientProfile.loading s0) false
    /\ after (FClientProfile.handleUpdateContact id role s0)
       = FClientProfile.with_contact (FClientProfile.loading s0) false
    /\ after (FClientProfile.handleStatusUpdate id role s0 newStatus)
       = FClientProfile.with_status (FClientProfile.loading s0) false
    /\ (FClientProfile.file (FClientProfile.newDocument s0) <> None ->
        truthy (user_id user) = true ->
        after (FClientProfile.handleUploadDocument id user s0)
        = FClientProfile.with_document (FClientProfile.loading s0) false)
    /\ (confirmations
          (trace (run_profile respond
                    (FClientProfile.handleDeleteDocument id s0 d p) w s))
        = [true] ->
        after (FClientProfile.handleDeleteDocument id s0 d p)
        = FClientProfile.with_document (FClientProfile.loading s0) false)
    /\ after (FClientProfile.loadDocuments id)
       = FClientProfile.with_document (FClientProfile.loading s) false
    /\ (DocumentsUpload.file (DocumentsUpload.documentData u0) <> None ->
        DocumentsUpload.isUploading
          (view (run_upload respond (DocumentsUpload.handleSubmit user u0) w u))
        = false)
    /\ DocumentsUpload.loadingClients
         (view (run_upload respond DocumentsUpload.fetchClients w u))
       = false.
Proof.
  intros. subst after. unfold run_profile, run_upload.
  split; [|split; [|split; [|split; [|split; [|split; [|split]]]]]].
  - unfold FClientProfile.handleAddContact. to_finally.
    apply loading_after_setLoading.
  - unfold FClientProfile.handleUpdateContact. to_finally.
    apply loading_after_setLoading.
  - unfold FClientProfile.handleStatusUpdate. to_finally.
    apply loading_after_setLoading.
  - intros Hf Hu. unfold FClientProfile.handleUploadDocument.
    destruct (FClientProfile.file (FClientProfile.newDocument s0));
      [|contradiction].
    rewrite Hu. to_finally. apply loading_after_setLoading.
  - unfold FClientProfile.handleDeleteDocument.
    cbn [mbind Prog_bind bind set call run logged view trace].
    destruct (respond _ w) as [[] w1]; cbn [fst snd negb].
    + intros _. to_finally. apply loading_after_setLoading.
    + cbn. intros H. discriminate H.
  - unfold FClientProfile.loadDocuments. rewrite run_finally_set.
    cbn [view]. cbn.
    reply_as respond reloaded. destruct s.
    settle_reply reloaded; reflexivity.
  - intros Hf. unfold DocumentsUpload.handleSubmit.
    destruct (DocumentsUpload.file (DocumentsUpload.documentData u0));
      [|contradiction].
    to_finally.
    match goal with
    | |- DocumentsUpload.isUploading (DocumentsUpload.apply _ ?x) = _ =>
        destruct x
    end. reflexivity.
  - unfold DocumentsUpload.fetchClients. rewrite run_finally_set. cbn [view].
    match goal with
    | |- DocumentsUpload.loadingClients (DocumentsUpload.apply _ ?x) = _ =>
        destruct x
    end. reflexivity.
Qed.

(** ** Splitting a file name *)

Lemma split_on_cons (sep : Ascii.ascii) (s : string) :
  exists h t, split_on sep s = h :: t.
Proof.
  destruct s as [|c r]; cbn; [eauto|].
  destruct (Ascii.eqb c sep); [eauto|].
  destruct (split_on sep r); eauto.
Qed.

Lemma concat_cons_char (sep : string) (c : Ascii.ascii) (h : string)
    (t : list string) :
  String.concat sep (String c h :: t) = String c (String.concat sep (h :: t)).
Proof. destruct t; reflexivity. Qed.

Lemma concat_cons_two (sep x y : string) (l : list string) :
  String.concat sep (x :: y :: l) = (x ++ sep ++ String.concat sep (y :: l))%string.
Proof. reflexivity. Qed.

Lemma split_on_pieces (sep : Ascii.ascii) (s : string) :
  String.concat (String sep EmptyString) (split_on sep s) = s
  /\ Forall (fun piece => has_char sep piece = false) (split_on sep s).
Proof.
  induction s as [|c r [IH1 IH2]]; cbn.
  - split; [reflexivity|]. repeat constructor.
  - destruct (Ascii.eqb c sep) eqn:E.
    + apply Ascii.eqb_eq in E. subst c.
      destruct (split_on_cons sep r) as (h & t & Hs). rewrite Hs in *.
      split.
      * rewrite concat_cons_two, IH1. reflexivity.
      * constructor; [reflexivity|exact IH2].
    + destruct (split_on sep r) as [|h t] eqn:Hs.
      * destruct (split_on_cons sep r) as (h & t & Hs'). congruence.
      * split.
        -- rewrite concat_cons_char, IH1. reflexivity.
        -- inversion IH2 as [|? ? Hh Ht]; subst. constructor; [|exact Ht].
           unfold has_char in *. cbn. rewrite Ascii.eqb_sym, E. exact Hh.
Qed.

(** X4. Splitting a string at a separator character and joining the pieces
    with that separator gives the string back; no piece contains the
    separator. *)
Theorem split_on_join :
  forall (sep : Ascii.ascii) (s : string),
    String.concat (String sep EmptyString) (split_on sep s) = s
    /\ Forall (fun piece => has_char sep piece = false) (split_on sep s).
Proof. intros sep s. apply split_on_pieces. Qed.

Lemma split_on_no_sep (sep : Ascii.ascii) (s : string) :
  has_char sep s = false -> split_on sep s = [s].
Proof.
  unfold has_char. induction s as [|c r IH]; cbn; [reflexivity|].
  intros H. apply orb_false_iff in H as [Hc Hr].
  rewrite Ascii.eqb_sym, Hc, (IH Hr). reflexivity.
Qed.

Lemma split_on_with_sep (sep : Ascii.ascii) (s : string) :
  has_char sep s = true -> exists h y t, split_on sep s = h :: y :: t.
Proof.
  unfold has_char. induction s as [|c r IH]; cbn; [discriminate|].
  intros H. rewrite Ascii.eqb_sym in H.
  destruct (Ascii.eqb c sep) eqn:E.
  - destruct (split_on_cons sep r) as (h & t & ->). eauto.
  - cbn in H. destruct (IH H) as (h & y & t & ->). eauto.
Qed.

Lemma pop_skip (h y : string) (t : list string) :
  pop (h :: y :: t) = pop (y :: t).
Proof. reflexivity. Qed.

Lemma extension_of_dotted (s : string) :
  has_char dot s = true ->
  exists stem, s = stem ++ String dot (pop (split_on dot s)).
Proof.
  induction s as [|c r IH]; [discriminate|].
  intros H. cbn [split_on].
  destruct (Ascii.eqb c dot) eqn:E.
  - apply Ascii.eqb_eq in E. subst c.
    destruct (has_char dot r) eqn:Hr.
    + destruct (IH eq_refl) as [stem Hstem].
      destruct (split_on_with_sep dot r Hr) as (h & y & t & Hs).
      rewrite Hs in *. rewrite pop_skip.
      exists (String dot stem). rewrite Hstem at 1. reflexivity.
    + rewrite (split_on_no_sep dot r Hr). exists EmptyString. reflexivity.
  - assert (Hr : has_char dot r = true).
    { unfold has_char in *. cbn in H. rewrite Ascii.eqb_sym, E in H. exact H. }
    destruct (IH Hr) as [stem Hstem].
    destruct (split_on_with_sep dot r Hr) as (h & y & t & Hs).
    rewrite Hs in *. rewrite pop_skip in *.
    exists (String c stem). rewrite Hstem at 1. reflexivity.
Qed.

Lemma extension_no_dot (name : string) :
  has_char dot (pop (split_on dot name)) = false.
Proof.
  destruct (split_on_pieces dot name) as [_ H].
  destruct (split_on_cons dot name) as (h & t & Hs). rewrite Hs in *.
  clear Hs. revert h H. induction t as [|y t IH]; intros h H.
  - inversion H; subst. assumption.
  - rewrite pop_skip. apply IH. inversion H; assumption.
Qed.

(** X5. The extension both upload handlers splice into the storage path,
    [name.split('.').pop()], never contains a dot; for a name with a dot
    it is what follows the last dot; for a name without any dot it is the
    whole name. *)
Theorem file_extension :
  forall name : string,
    let ext := pop (split_on dot name) in
    has_char dot ext = false
    /\ (has_char dot name = true -> exists stem, name = stem ++ String dot ext)
    /\ (has_char dot name = false -> ext = name).
Proof.
  intros name ext. subst ext. split; [|split].
  - apply extension_no_dot.
  - apply extension_of_dotted.
  - intros H. rewrite (split_on_no_sep dot name H). reflexivity.
Qed.

Lemma file_extension_witness :
  (exists stem, "deal.final.pdf" = stem ++ String dot "pdf")
  /\ pop (split_on dot "README") = "README".
Proof.
  split.
  - apply (proj1 (proj2 (file_extension "deal.final.pdf")) eq_refl).
  - apply (proj2 (proj2 (file_extension "README")) eq_refl).
Defined.

(** ** Storage paths *)

Lemma append_cons (c : Ascii.ascii) (a b : string) :
  (String c a ++ b)%string = String c (a ++ b).
Proof. reflexivity. Qed.

Lemma string_app_inv_head (a x y : string) : (a ++ x = a ++ y)%string -> x = y.
Proof.
  induction a as [|c a IH]; intros H; [exact H|].
  rewrite !append_cons in H. injection H as H. auto.
Qed.

Lemma list_of_string_app (a b : string) :
  String.list_ascii_of_string (a ++ b)
  = (String.list_ascii_of_string a ++ String.list_ascii_of_string b)%list.
Proof.
  induction a as [|c a IH]; [reflexivity|].
  rewrite append_cons. cbn. f_equal. exact IH.
Qed.

Lemma string_app_inv_tail (x y b : string) : (x ++ b = y ++ b)%string -> x = y.
Proof.
  intros H. apply (f_equal String.list_ascii_of_string) in H.
  rewrite !list_of_string_app in H. apply app_inv_tail in H.
  rewrite <- (String.string_of_list_ascii_of_string x),
    <- (String.string_of_list_ascii_of_string y), H.
  reflexivity.
Qed.

Lemma has_char_app_sep (sep : Ascii.ascii) (a e : string) :
  has_char sep (a ++ String sep e) = true.
Proof.
  unfold has_char. rewrite list_of_string_app, existsb_app. cbn.
  rewrite Ascii.eqb_refl, orb_true_r. reflexivity.
Qed.

Lemma extension_of_app (a e : string) :
  has_char dot e = false -> pop (split_on dot (a ++ String dot e)) = e.
Proof.
  intros He. induction a as [|c a IH].
  - change (pop (split_on dot (String dot e)) = e).
    cbn [split_on]. rewrite Ascii.eqb_refl.
    rewrite (split_on_no_sep dot e He). reflexivity.
  - rewrite append_cons. cbn [split_on].
    destruct (split_on_with_sep dot _ (has_char_app_sep dot a e))
      as (h & y & t & Hs).
    rewrite Hs in *. destruct (Ascii.eqb c dot); rewrite !pop_skip; exact IH.
Qed.

Lemma stamped_eq (a a' e e' : string) :
  has_char dot e = false -> has_char dot e' = false ->
  (a ++ String dot e = a' ++ String dot e')%string -> a = a' /\ e = e'.
Proof.
  intros He He' H.
  assert (E : e = e').
  { rewrite <- (extension_of_app a e He), H. apply extension_of_app, He'. }
  subst e'. split; [|reflexivity]. eapply string_app_inv_tail, H.
Qed.

(** X6. Two uploads by the same user get the same storage path exactly
    when [Date.now()] returned the same value for both and the two file
    names have the same extension: nothing else of the file name enters
    the path.  The same holds in the standalone form for two uploads with
    the same client selected. *)
Theorem upload_paths_collide :
  forall (uid : string) (d : DocumentsUpload.DocumentData) (now now' : Z)
         (f f' : File),
    let same := now = now' /\
                pop (split_on dot (file_name f))
                = pop (split_on dot (file_name f')) in
    (FClientProfile.uploadPath uid now f = FClientProfile.uploadPath uid now' f'
     <-> same)
    /\ (DocumentsUpload.uploadPath d now f = DocumentsUpload.uploadPath d now' f'
        <-> same).
Proof.
  intros uid d now now' f f' same. subst same.
  unfold FClientProfile.uploadPath, DocumentsUpload.uploadPath.
  pose proof (extension_no_dot (file_name f)) as He.
  pose proof (extension_no_dot (file_name f')) as He'.
  split; (split; [|intros [-> ->]; reflexivity]); intros H.
  - apply string_app_inv_head, (string_app_inv_head "/") in H.
    destruct (stamped_eq (show_Z now) (show_Z now') _ _ He He' H) as [Hn Hx].
    split; [|exact Hx]. apply (inj pretty), Hn.
  - apply string_app_inv_head, string_app_inv_head,
      (string_app_inv_head "_") in H.
    destruct (stamped_eq (show_Z now) (show_Z now') _ _ He He' H) as [Hn Hx].
    split; [|exact Hx]. apply (inj pretty), Hn.
Qed.

(** ** Encoding the mail subject and body *)

Lemma hex_pair_read_back (c : Ascii.ascii) :
  Ascii.ascii_of_nat
    (hex_value (hex_digit (Ascii.nat_of_ascii c / 16)) * 16
     + hex_value (hex_digit (Ascii.nat_of_ascii c mod 16)))
  = c.
Proof. destruct c as [[] [] [] [] [] [] [] []]; vm_compute; reflexivity. Qed.

Lemma hex_pair_inj (c d : Ascii.ascii) :
  hex_digit (Ascii.nat_of_ascii c / 16) = hex_digit (Ascii.nat_of_ascii d / 16) ->
  hex_digit (Ascii.nat_of_ascii c mod 16)
  = hex_digit (Ascii.nat_of_ascii d mod 16) ->
  c = d.
Proof.
  intros H1 H2.
  rewrite <- (hex_pair_read_back c), <- (hex_pair_read_back d), H1, H2.
  reflexivity.
Qed.

(** X7. [encodeURIComponent] loses nothing: two texts with the same
    encoding are the same text, so the subject and body of a compose link
    determine the texts they were built from. *)
Theorem encodeURIComponent_injective :
  forall a b : string,
    encodeURIComponent a = encodeURIComponent b -> a = b.
Proof.
  induction a as [|c a IH]; intros [|d b] H; cbn in H.
  - reflexivity.
  - destruct (uri_unreserved d); discriminate H.
  - destruct (uri_unreserved c); discriminate H.
  - destruct (uri_unreserved c) eqn:Ec, (uri_unreserved d) eqn:Ed;
      injection H as H; subst.
    + f_equal. apply IH. assumption.
    + vm_compute in Ec. discriminate Ec.
    + vm_compute in Ed. discriminate Ed.
    + match goal with
      | H1 : hex_digit _ = hex_digit _, H2 : hex_digit _ = hex_digit _ |- _ =>
          rewrite (hex_pair_inj c d H1 H2)
      end.
      f_equal. apply IH. assumption.
Qed.

Lemma encodeURIComponent_injective_witness :
  "Offer #7" = "Offer #7".
Proof. apply encodeURIComponent_injective. vm_compute. reflexivity. Defined.

(** X8. A text made only of letters, digits and [- _ . ! ~ * ' ( )] is
    its own encoding.  In general, with the text taken as its UTF-8 bytes
    (as the function itself takes it), every byte outside that set becomes
    the three characters of its percent escape and every other byte stays
    one character: the encoding has as many characters as the text has
    bytes, plus two for each escaped byte, hence at most three per byte.
    (A character outside ASCII is several bytes: the rupee sign is three
    bytes and encodes to nine characters.) *)
Theorem encodeURIComponent_size :
  forall s : string,
    let escaped :=
      length (List.filter (fun c => negb (uri_unreserved c))
                (String.list_ascii_of_string s)) in
    (forallb uri_unreserved (String.list_ascii_of_string s) = true ->
     encodeURIComponent s = s)
    /\ String.length (encodeURIComponent s)
       = (String.length s + 2 * escaped)%nat
    /\ (String.length s <= String.length (encodeURIComponent s)
        <= 3 * String.length s)%nat
    /\ String.length (encodeURIComponent FClientProfile.rupee) = 9%nat.
Proof.
  intros s escaped. subst escaped.
  split; [|split; [|split; [|reflexivity]]].
  - induction s as [|c s IH]; cbn; [reflexivity|].
    destruct (uri_unreserved c); cbn; [|discriminate].
    intros H. rewrite (IH H). reflexivity.
  - induction s as [|c s IH]; cbn; [reflexivity|].
    destruct (uri_unreserved c); cbn; rewrite IH; lia.
  - induction s as [|c s IH]; cbn; [lia|].
    destruct (uri_unreserved c); cbn; lia.
Qed.

Lemma encodeURIComponent_size_witness :
  encodeURIComponent "deal-7_final.pdf" = "deal-7_final.pdf".
Proof.
  apply (proj1 (encodeURIComponent_size "deal-7_final.pdf")).
  vm_compute. reflexivity.
Defined.

(** ** Client profile view: contacts *)

Ltac explore respond :=
  repeat match goal with
         | |- context [respond ?c ?w] =>
             let x := fresh "x" in
             let w' := fresh "w" in
             destruct (respond c w) as [x w']; cbn in x |- *
         | x : Settled _ |- _ => destruct x as [? [?|]|?]; cbn
         end.

Ltac settled :=
  repeat match goal with
         | |- _ `prefix_of` _ => eexists; reflexivity
         | |- _ /\ _ => split
         | |- _ <-> _ => split
         | |- _ -> _ => intro
         | |- forall _, _ => intro
         end;
  cbn in *; try congruence; try reflexivity; try lia; try done.

(** X9. Adding a contact inserts first and reloads the client only after
    the insert succeeded.  If the insert fails, the failure is logged, no
    further call is made, and the modal, the form, the client and the
    contact list stay as they were; if it succeeds the form is emptied and
    the modal closed.  No alert is ever shown. *)
Theorem add_contact_insert_then_reload :
  forall (W : Type) (respond : forall c : Call, W -> reply_ty c * W) (w : W)
         (id role : option string) (s0 s : FClientProfile.State),
    let r := run_profile respond (FClientProfile.handleAddContact id role s0) w s in
    let t := trace r in
    let inserted :=
      AwaitInsert "contact_persons"
        [FClientProfile.contactRow id (FClientProfile.newContact s0)] in
    remote_calls t
      `prefix_of` [inserted;
                   AwaitSingle (eq_ "id" (opt_value id) (from_select "clients" "*"));
                   AwaitSelect
                     (order_ "created_at" false
                        (eq_ "client_id" (opt_value id)
                           (from_select "contact_persons" "*")))]
    /\ alerts t = []
    /\ (forall e, first_failure t = Some e ->
          remote_calls t = [inserted]
          /\ console_errors t = [e]
          /\ FClientProfile.showAddContactModal (view r)
             = FClientProfile.showAddContactModal s
          /\ FClientProfile.newContact (view r) = FClientProfile.newContact s
          /\ FClientProfile.client (view r) = FClientProfile.client s
          /\ FClientProfile.contactPersons (view r)
             = FClientProfile.contactPersons s)
    /\ (first_failure t = None ->
          FClientProfile.showAddContactModal (view r) = false
          /\ FClientProfile.newContact (view r)
             = FClientProfile.mkNewContact "" "" "" ""
          /\ (2 <= length (remote_calls t))%nat).
Proof.
  intros. subst r t inserted.
  unfold run_profile, FClientProfile.handleAddContact,
    FClientProfile.loadClientData.
  destruct s. cbn. explore respond; settled.
Qed.

#[local] Arguments FClientProfile.contactRow : simpl never.

Lemma contactRow_client (cid : string) (c : FClientProfile.NewContact) :
  row_matches [("client_id", VStr cid)] (FClientProfile.contactRow (Some cid) c)
  = true.
Proof. apply row_matches_one. reflexivity. Qed.

(** X10. In the reference environment, adding a contact for client [cid]
    appends exactly one row to [contact_persons], carrying the four form
    fields and the client's identifier, and the contact list then shown is
    the client's previous rows together with that one row; the modal is
    closed. *)
Theorem add_contact_lists_new_entry :
  forall (w : World) (cid : string) (role : option string)
         (s0 s : FClientProfile.State),
    let r := run_profile respond_ref
               (FClientProfile.handleAddContact (Some cid) role s0) w s in
    let row := FClientProfile.contactRow (Some cid) (FClientProfile.newContact s0) in
    table (backend (world r)) "contact_persons"
    = (table (backend w) "contact_persons" ++ [row])%list
    /\ FClientProfile.contactPersons (view r)
       ≡ₚ (List.filter (row_matches [("client_id", VStr cid)])
             (table (backend w) "contact_persons") ++ [row])%list
    /\ FClientProfile.showAddContactModal (view r) = false
    /\ map (fun col => row !! col) ["name"; "position"; "email"; "phone"; "client_id"]
       = [Some (VStr (FClientProfile.name (FClientProfile.newContact s0)));
          Some (VStr (FClientProfile.position (FClientProfile.newContact s0)));
          Some (VStr (FClientProfile.email (FClientProfile.newContact s0)));
          Some (VStr (FClientProfile.phone (FClientProfile.newContact s0)));
          Some (VStr cid)].
Proof.
  intros. subst r row.
  unfold run_profile, FClientProfile.handleAddContact,
    FClientProfile.loadClientData.
  destruct s. cbn.
  match goal with |- context [single ?l] => destruct l as [|r0 [|r1 l0]] end;
    cbn; unfold insert_rows; rewrite !table_with_table;
    (split; [reflexivity|]); (split; [|split; reflexivity]);
    rewrite merge_sort_Permutation, List.filter_app; cbn [List.filter];
    rewrite contactRow_client; reflexivity.
Qed.

#[local] Arguments FClientProfile.contactPatch : simpl never.


Lemma contactPatch_lookup (c r : Row) (col : string) :
  patched (FClientProfile.contactPatch c) r !! col
  = if bool_decide (col ∈ ["name"; "position"; "email"; "phone"])
    then Some (field c col)
    else r !! col.
Proof.
  unfold patched. case_bool_decide as E.
  - apply lookup_union_Some_l.
    rewrite !elem_of_cons, elem_of_nil in E.
    destruct E as [->|[->|[->|[->|[]]]]]; reflexivity.
  - apply lookup_union_r, not_elem_of_list_to_map_1. exact E.
Qed.

(** X12. In the reference environment, saving an edited contact leaves
    the number and order of the [contact_persons] rows as they were;
    every row with the edited contact's [id] gets the edited name,
    position, email and phone and keeps all its other columns; every other
    row is untouched. *)
Theorem update_contact_touches_one_contact :
  forall (w : World) (id role : option string) (s0 s : FClientProfile.State)
         (c : Row),
    FClientProfile.editContact s0 = Some c ->
    let r := run_profile respond_ref
               (FClientProfile.handleUpdateContact id role s0) w s in
    table (backend (world r)) "contact_persons"
    = map (fun row =>
             if bool_decide (row !! "id" = Some (field c "id"))
             then patched (FClientProfile.contactPatch c) row else row)
        (table (backend w) "contact_persons")
    /\ (forall (row : Row) (col : string),
          patched (FClientProfile.contactPatch c) row !! col
          = if bool_decide (col ∈ ["name"; "position"; "email"; "phone"])
            then Some (field c col)
            else row !! col)
    /\ FClientProfile.editContact (view r) = None.
Proof.
  intros w id role s0 s c Hc r. subst r.
  unfold run_profile, FClientProfile.handleUpdateContact,
    FClientProfile.loadClientData.
  rewrite Hc. destruct s. cbn.
  match goal with |- context [single ?l] => destruct l as [|r0 [|r1 l0]] end;
    cbn; unfold update_rows; rewrite !table_with_table;
    (split; [|split; [apply contactPatch_lookup|reflexivity]]);
    apply map_ext; intros row; unfold row_matches; cbn;
    rewrite andb_true_r; reflexivity.
Qed.

(** ** Document upload form: submitting *)

#[local] Arguments DocumentsUpload.uploadPath : simpl never.
#[local] Arguments DocumentsUpload.documentRow : simpl never.

Lemma handleSubmit_history :
  forall (W : Type) (respond : forall c : Call, W -> reply_ty c * W) (w : W)
         (user : option User) (u0 u : DocumentsUpload.State) (f : File),
    DocumentsUpload.file (DocumentsUpload.documentData u0) = Some f ->
    let r := run_upload respond (DocumentsUpload.handleSubmit user u0) w u in
    let t := trace r in
    let path :=
      DocumentsUpload.uploadPath (DocumentsUpload.documentData u0)
        (hd 0 (timestamps t)) f in
    let steps :=
      [DateNow;
       AwaitUpload "documents" path f
         (mkUploadOptions "3600" false (Some (file_type f)));
       GetPublicUrl "documents" path;
       AwaitInsert "documents"
         [DocumentsUpload.documentRow user (DocumentsUpload.documentData u0) f
            (hd "" (public_urls t)) path]] in
    steps_made t `prefix_of` steps
    /\ (length (omap failure t) <= 1)%nat
    /\ console_errors t = omap failure t
    /\ (omap failure t = [] ->
        steps_made t = steps
        /\ DocumentsUpload.uploadSuccess (view r) = true
        /\ DocumentsUpload.uploadError (view r) = None
        /\ DocumentsUpload.documentData (view r)
           = DocumentsUpload.emptyDocumentData)
    /\ (forall e, omap failure t = [e] ->
        DocumentsUpload.uploadSuccess (view r) = false
        /\ DocumentsUpload.uploadError (view r)
           = Some match e with
                  | ErrorInstance message => message
                  | OtherThrown _ => "Failed to upload document"
                  end
        /\ DocumentsUpload.documentData (view r) = DocumentsUpload.documentData u)
    /\ (DocumentsUpload.uploadSuccess (view r) = true
        <-> DocumentsUpload.uploadError (view r) = None)
    /\ DocumentsUpload.uploadProgress (view r) = DocumentsUpload.uploadProgress u
    /\ DocumentsUpload.clients (view r) = DocumentsUpload.clients u
    /\ (length (timestamps t) <= 1)%nat
    /\ (length (public_urls t) <= 1)%nat.
Proof.
  intros W respond w user u0 u f Hf r t path steps. subst r t path steps.
  unfold run_upload, DocumentsUpload.handleSubmit. rewrite Hf.
  destruct u. cbn. explore respond;
    repeat match goal with e : JsError |- _ => destruct e end;
    settled;
    repeat match goal with
           | H : [_] = [_] |- _ => injection H as H; subst
           end;
    reflexivity.
Qed.


(** X14. A submit with no file right after a successful upload shows both
    banners: the first submit leaves the form empty and the success banner
    on, and the second, finding no file, sets the error "Please select a
    file to upload" without making any call and without turning the
    success banner off. *)
Theorem resubmit_shows_both_banners :
  forall (W : Type) (respond : forall c : Call, W -> reply_ty c * W) (w : W)
         (user : option User) (u0 u : DocumentsUpload.State) (f : File),
    DocumentsUpload.file (DocumentsUpload.documentData u0) = Some f ->
    let r1 := run_upload respond (DocumentsUpload.handleSubmit user u0) w u in
    omap failure (trace r1) = [] ->
    let r2 := run_upload respond
                (DocumentsUpload.handleSubmit user (view r1))
                (world r1) (view r1) in
    calls (trace r2) = []
    /\ DocumentsUpload.uploadSuccess (view r2) = true
    /\ DocumentsUpload.uploadError (view r2)
       = Some "Please select a file to upload".
Proof.
  intros W respond w user u0 u f Hf r1 Hok r2.
  destruct (handleSubmit_history W respond w user u0 u f Hf)
    as (_ & _ & _ & H & _).
  destruct (H Hok) as (_ & Hs & _ & Hd).
  fold r1 in Hs, Hd. clearbody r1. subst r2.
  unfold run_upload, DocumentsUpload.handleSubmit.
  rewrite Hd. cbn. destruct (view r1). cbn in *. subst. repeat split.
Qed.

(** X15. The employee recorded on an uploaded document is the session
    user's identifier whenever there is one, and the identifier typed into
    the form otherwise; the typed one is used exactly in the case in which
    the form renders its "Employee ID" input. *)
Theorem row_employee_matches_input :
  forall (user : option User) (d : DocumentsUpload.DocumentData) (f : File)
         (publicUrl filePath : string),
    DocumentsUpload.documentRow user d f publicUrl filePath !! "employee_id"
    = Some (VStr (if DocumentsUpload.employee_input_shown user
                  then DocumentsUpload.employee_id d
                  else default "" (user_id user)))
    /\ (DocumentsUpload.employee_input_shown user = false
        <-> exists uid, user_id user = Some uid /\ uid <> "").
Proof.
  intros.
  unfold DocumentsUpload.employee_input_shown, DocumentsUpload.documentRow.
  destruct (user_id user) as [uid|]; cbn.
  - destruct (String.eqb_spec uid "") as [->|N]; cbn.
    + split; [reflexivity|]. split; [discriminate|].
      intros (x & Hx & Hn). congruence.
    + split; [reflexivity|]. split; [eauto|reflexivity].
  - split; [reflexivity|]. split; [discriminate|].
    intros (x & Hx & _). discriminate Hx.
Qed.

(** ** Client profile view: documents in the reference environment *)

(** X16. In the reference environment a confirmed delete removes nothing
    but its target: every other [documents] row and every other stored
    object is still there, the buckets and all other tables are as
    before. *)
Theorem delete_document_spares_the_rest :
  forall (w : World) (id : option string) (s0 s : FClientProfile.State)
         (documentId filePath : string),
    confirm_answer (browser w) = true ->
    let r := run_profile respond_ref
               (FClientProfile.handleDeleteDocument id s0 documentId filePath)
               w s in
    (forall row : Row,
        In row (table (backend w) "documents") ->
        row !! "id" <> Some (VStr documentId) ->
        In row (table (backend (world r)) "documents"))
    /\ (forall o : string * string,
          In o (objects (backend w)) -> o <> ("documents", filePath) ->
          In o (objects (backend (world r))))
    /\ (forall t : string,
          t <> "documents" ->
          table (backend (world r)) t = table (backend w) t)
    /\ buckets (backend (world r)) = buckets (backend w).
Proof.
  intros w id s0 s documentId filePath Hc r. subst r.
  unfold run_profile, FClientProfile.handleDeleteDocument,
    FClientProfile.loadDocuments.
  destruct s. cbn. rewrite Hc. cbn. split; [|split; [|split]].
  - intros row Hin Hid. unfold delete_rows. rewrite table_with_table.
    apply filter_In. split; [exact Hin|].
    destruct (row_matches [("id", VStr documentId)] row) eqn:E;
      [|reflexivity].
    apply row_matches_one in E. contradiction.
  - intros [b p] Hin Hne. apply filter_In. split; [exact Hin|]. cbn.
    destruct (String.eqb_spec b "documents") as [->|]; [|reflexivity].
    destruct (String.eqb_spec p filePath) as [->|]; [|reflexivity].
    contradiction.
  - intros t Ht. unfold delete_rows, with_table, table. cbn.
    rewrite lookup_insert_ne by congruence. reflexivity.
  - reflexivity.
Qed.

#[local] Arguments FClientProfile.uploadPath : simpl never.
#[local] Arguments FClientProfile.documentRow : simpl never.

Lemma documentRow_client (cid uid : string) (d : FClientProfile.NewDocument)
    (f : File) (url path : string) :
  row_matches [("client_id", VStr cid)]
    (FClientProfile.documentRow (Some cid) uid d f url path) = true.
Proof. apply row_matches_one. reflexivity. Qed.

#[local] Arguments holds_object : simpl never.

Lemma holds_object_In (b : Backend) (bucket path : string) :
  holds_object b bucket path = true <-> In (bucket, path) (objects b).
Proof.
  unfold holds_object. rewrite existsb_exists. split.
  - intros ([b' p'] & Hin & H). cbn in H. apply andb_true_iff in H as [Hb Hp].
    apply String.eqb_eq in Hb, Hp. subst. exact Hin.
  - intros Hin. exists (bucket, path). split; [exact Hin|]. cbn.
    rewrite !String.eqb_refl. reflexivity.
Qed.

Lemma holds_object_create (b : Backend) (name bucket path : string) :
  holds_object (create_bucket name b) bucket path = holds_object b bucket path.
Proof. reflexivity. Qed.

(** X17. In the reference environment, take an upload with a file and a
    session user.  The path is [<user id>/<clock>.<extension>].  If no
    object is stored at that path, the handler lists the buckets, creates
    "documents" if it is not listed, reads the clock, uploads, asks for
    the public URL of the path, inserts the metadata row carrying that
    path and that URL, and reloads: the object is then stored, exactly
    that row is appended to [documents], the reloaded list shows it, the
    modal is closed, the form is back to its initial contents and no alert
    is shown.  If an object is already stored at that path, the upload
    (made with [upsert: false]) is refused: one alert "Upload failed: The
    resource already exists" is shown, no row is inserted, the stored
    objects are as before, and the modal, the form and the document list
    stay as they were.  In both cases a bucket named "documents" exists
    afterwards, and an existing one is never duplicated. *)
Theorem upload_document_is_listed :
  forall (w : World) (cid : string) (user : option User)
         (s0 s : FClientProfile.State) (f : File) (uid : string),
    FClientProfile.file (FClientProfile.newDocument s0) = Some f ->
    user_id user = Some uid ->
    uid <> "" ->
    let r := run_profile respond_ref
               (FClientProfile.handleUploadDocument (Some cid) user s0) w s in
    let path := FClientProfile.uploadPath uid (clock (browser w)) f in
    let url := "/storage/v1/object/public/documents/" ++ path in
    let row :=
      FClientProfile.documentRow (Some cid) uid (FClientProfile.newDocument s0)
        f url path in
    (holds_object (backend w) "documents" path = false ->
     steps_made (trace r)
     = AwaitListBuckets
       :: (expected_creation [Some (buckets (backend w))] ++
           [DateNow;
            AwaitUpload "documents" path f (mkUploadOptions "3600" false None);
            GetPublicUrl "documents" path;
            AwaitInsert "documents" [row];
            AwaitSelect (FClientProfile.documentsQuery (Some cid))])%list
     /\ In ("documents", path) (objects (backend (world r)))
     /\ table (backend (world r)) "documents"
        = (table (backend w) "documents" ++ [row])%list
     /\ In row (FClientProfile.documents (view r))
     /\ FClientProfile.showDocumentModal (view r) = false
     /\ FClientProfile.newDocument (view r)
        = FClientProfile.mkNewDocument "quotation" "" None
     /\ alerts (trace r) = [])
    /\ (holds_object (backend w) "documents" path = true ->
        alerts (trace r) = ["Upload failed: The resource already exists"]
        /\ table (backend (world r)) "documents" = table (backend w) "documents"
        /\ objects (backend (world r)) = objects (backend w)
        /\ FClientProfile.showDocumentModal (view r)
           = FClientProfile.showDocumentModal s
        /\ FClientProfile.newDocument (view r) = FClientProfile.newDocument s
        /\ FClientProfile.documents (view r) = FClientProfile.documents s)
    /\ FClientProfile.has_documents_bucket (Some (buckets (backend (world r))))
       = true
    /\ (FClientProfile.has_documents_bucket (Some (buckets (backend w))) = true ->
        buckets (backend (world r)) = buckets (backend w)).
Proof.
  intros w cid user s0 s f uid Hf Hu Hne r path url row. subst r path url row.
  unfold run_profile, FClientProfile.handleUploadDocument.
  rewrite Hf, Hu, (truthy_Some _ Hne), (or_else_Some _ _ Hne).
  unfold FClientProfile.loadDocuments. destruct s. cbn.
  destruct (existsb _ (buckets (backend w))) eqn:E; cbn;
    unfold upload_object; cbn [upsert negb andb];
    change (holds_object (create_bucket "documents" (backend w)) ?b ?p)
      with (holds_object (backend w) b p);
    destruct (holds_object (backend w) "documents" _) eqn:Eh; cbn.
  all: unfold put_object, insert_rows; cbn;
    rewrite ?holds_object_create, ?Eh; cbn; rewrite ?table_with_table.
  all: unfold FClientProfile.has_documents_bucket; cbn; rewrite ?E.
  all: repeat match goal with
         | |- _ /\ _ => split
         | |- _ -> _ => intro
         end;
    try discriminate; try reflexivity.
  all: try (apply in_or_app; right; left; reflexivity).
  all: try (rewrite <- list_elem_of_In, merge_sort_Permutation, list_elem_of_In;
            apply filter_In;
            split; [apply in_or_app; right; left; reflexivity|];
            apply documentRow_client).
  all: try (rewrite existsb_app; cbn; apply orb_true_r).
Qed.

(** ** How the loaders treat failures *)

(** X18. [loadClientData] looks only at the [data] of its two queries.
    An error a query returns is neither logged nor shown: only a rejected
    call is logged.  Whatever the client query returns becomes the client,
    so a query that returns no row leaves the view on its loading
    placeholder; the contact list becomes the returned rows, or the empty
    list when none are returned.  When a call rejects, the contact list is
    left as it was. *)
Theorem loadClientData_drops_returned_errors :
  forall (W : Type) (respond : forall c : Call, W -> reply_ty c * W) (w : W)
         (id role : option string) (s : FClientProfile.State),
    let r := run_profile respond (FClientProfile.loadClientData id role) w s in
    let t := trace r in
    console_errors t = omap rejection t
    /\ alerts t = []
    /\ (forall data, fetched t = [data] ->
          FClientProfile.client (view r) = data
          /\ (data = None ->
              FClientProfile.render role (view r)
              = FClientProfile.LoadingClientData))
    /\ (forall rows, selected t = [rows] ->
          FClientProfile.contactPersons (view r) = default [] rows)
    /\ (omap rejection t <> [] ->
          FClientProfile.contactPersons (view r)
          = FClientProfile.contactPersons s).
Proof.
  intros. subst r t. unfold run_profile, FClientProfile.loadClientData.
  destruct s. cbn. explore respond; settled;
    repeat match goal with
           | H : [_] = [_] |- _ => injection H as H; subst
           end;
    try reflexivity; try discriminate.
Qed.

(** X19. The two list loaders keep the old list when the query fails.
    [loadDocuments] and the upload form's [fetchClients] each make exactly
    one query; if it returns an error or rejects, the failure is logged and
    the list shown stays as it was (for the clients, with the error
    "Failed to load client list" shown); otherwise the list becomes the
    returned rows, or the empty list when none are returned, and the
    form's error is left alone. *)
Theorem list_loaders_keep_list_on_failure :
  forall (W : Type) (respond : forall c : Call, W -> reply_ty c * W) (w : W)
         (id : option string) (s : FClientProfile.State)
         (u : DocumentsUpload.State),
    let r := run_profile respond (FClientProfile.loadDocuments id) w s in
    let r' := run_upload respond DocumentsUpload.fetchClients w u in
    (remote_calls (trace r) = [AwaitSelect (FClientProfile.documentsQuery id)]
     /\ console_errors (trace r) = omap failure (trace r)
     /\ (forall e, omap failure (trace r) = [e] ->
           FClientProfile.documents (view r) = FClientProfile.documents s)
     /\ (omap failure (trace r) = [] ->
           exists rows, selected (trace r) = [rows]
                        /\ FClientProfile.documents (view r) = default [] rows))
    /\ (console_errors (trace r') = omap failure (trace r')
        /\ (forall e, omap failure (trace r') = [e] ->
              DocumentsUpload.clients (view r') = DocumentsUpload.clients u
              /\ DocumentsUpload.uploadError (view r')
                 = Some "Failed to load client list")
        /\ (omap failure (trace r') = [] ->
              DocumentsUpload.uploadError (view r')
              = DocumentsUpload.uploadError u
              /\ exists rows, selected (trace r') = [rows]
                              /\ DocumentsUpload.clients (view r')
                                 = default [] rows)).
Proof.
  intros. subst r r'.
  unfold run_profile, run_upload, FClientProfile.loadDocuments,
    DocumentsUpload.fetchClients.
  destruct s, u. cbn. explore respond; settled;
    try (eexists; split; reflexivity).
Qed.

(** ** Client profile view: marking a client completed *)



(** ** Document upload form: editing the form *)

(** X21. Editing the upload form never loses the picked file by accident.
    A change in one of the four inputs wired to [handleInputChange] (client,
    employee, document type, description) stores the typed value under
    that input's name, leaves the other three as they were and leaves the
    file as it was; so does a file dialog that comes back empty.  Picking
    replaces the file by the first one picked and leaves the four text
    fields alone.  After [removeFile] the file is gone, the text fields
    are kept, and a submit is rejected without any call. *)
Theorem form_editing_keeps_file :
  forall (W : Type) (respond : forall c : Call, W -> reply_ty c * W) (w : W)
         (user : option User) (u : DocumentsUpload.State)
         (name : DocumentsUpload.InputName) (value : string)
         (f : File) (more : list File),
    let data h := DocumentsUpload.documentData (view (run_upload respond h w u)) in
    let texts d :=
      (DocumentsUpload.client_id d, DocumentsUpload.employee_id d,
       DocumentsUpload.document_type d, DocumentsUpload.description d) in
    DocumentsUpload.file (data (DocumentsUpload.handleInputChange u name value))
    = DocumentsUpload.file (DocumentsUpload.documentData u)
    /\ read_input (data (DocumentsUpload.handleInputChange u name value)) name
       = value
    /\ (forall other : DocumentsUpload.InputName,
          other <> name ->
          read_input (data (DocumentsUpload.handleInputChange u name value))
            other
          = read_input (DocumentsUpload.documentData u) other)
    /\ data (DocumentsUpload.handleFileChange u [])
       = DocumentsUpload.documentData u
    /\ DocumentsUpload.file (data (DocumentsUpload.handleFileChange u (f :: more)))
       = Some f
    /\ texts (data (DocumentsUpload.handleFileChange u (f :: more)))
       = texts (DocumentsUpload.documentData u)
    /\ DocumentsUpload.file (data (DocumentsUpload.removeFile u)) = None
    /\ texts (data (DocumentsUpload.removeFile u))
       = texts (DocumentsUpload.documentData u)
    /\ (let removed := run_upload respond (DocumentsUpload.removeFile u) w u in
        let r := run_upload respond
                   (DocumentsUpload.handleSubmit user (view removed))
                   (world removed) (view removed) in
        calls (trace r) = []
        /\ DocumentsUpload.uploadError (view r)
           = Some "Please select a file to upload").
Proof.
  intros. subst data texts. unfold run_upload.
  destruct u as [[cid eid ty de fi] iu up ue us cl lc]. cbn.
  repeat split; try (destruct name; reflexivity).
  intros other Hne. destruct name, other; try reflexivity; contradiction.
Qed.

(** ** The statements above at sample inputs *)

Lemma busy_flags_are_reset_witness :
  FClientProfile.loading
    (view (run_profile respond_storage_refuses
             (FClientProfile.handleUploadDocument (Some "c1") (Some sample_user)
                upload_ready)
             sample_world upload_ready))
  = FClientProfile.mkLoading false false false false
  /\ DocumentsUpload.isUploading
       (view (run_upload respond_storage_refuses
                (DocumentsUpload.handleSubmit (Some sample_user) form_ready)
                sample_world form_ready))
     = false.
Proof.
  pose proof (busy_flags_are_reset World respond_storage_refuses sample_world
                (Some "c1") None (Some sample_user) "completed" "d1"
                "e1/1700.pdf" upload_ready upload_ready form_ready form_ready)
    as H.
  cbv zeta in H. destruct H as (_ & _ & _ & Hup & _ & _ & Hsub & _).
  split.
  - apply Hup; [discriminate|reflexivity].
  - apply Hsub. discriminate.
Defined.

Lemma add_contact_insert_then_reload_witness :
  let r := run_profile respond_database_refuses
             (FClientProfile.handleAddContact (Some "c1") None contact_ready)
             sample_world contact_ready in
  console_errors (trace r) = [ErrorInstance "permission denied"]
  /\ FClientProfile.showAddContactModal (view r) = true
  /\ FClientProfile.newContact (view r)
     = FClientProfile.mkNewContact "Jane Doe" "Buyer" "jane@x.com" "555-0100".
Proof.
  pose proof (add_contact_insert_then_reload World respond_database_refuses
                sample_world (Some "c1") None contact_ready contact_ready) as H.
  cbv zeta in H. destruct H as (_ & _ & H & _).
  destruct (H (ErrorInstance "permission denied") eq_refl)
    as (_ & Hlog & Hmodal & Hform & _).
  split; [exact Hlog|]. split; [rewrite Hmodal|rewrite Hform]; reflexivity.
Defined.


Lemma update_contact_touches_one_contact_witness :
  map (fun row => (field row "id", field row "name"))
    (table (backend (world (run_profile respond_ref
                              (FClientProfile.handleUpdateContact (Some "c1")
                                 None contact_editing)
                              contacts_world contact_editing)))
       "contact_persons")
  = [(VStr "p1", VStr "Jane Doe"); (VStr "p2", VStr "Ravi Iyer")].
Proof.
  destruct (update_contact_touches_one_contact contacts_world (Some "c1") None
              contact_editing contact_editing sample_contact eq_refl)
    as (H & _).
  rewrite H. vm_compute. reflexivity.
Defined.


Lemma resubmit_shows_both_banners_witness :
  let r1 := run_upload respond_ref
              (DocumentsUpload.handleSubmit (Some sample_user) form_ready)
              sample_world form_ready in
  let r2 := run_upload respond_ref
              (DocumentsUpload.handleSubmit (Some sample_user) (view r1))
              (world r1) (view r1) in
  DocumentsUpload.uploadSuccess (view r2) = true
  /\ DocumentsUpload.uploadError (view r2)
     = Some "Please select a file to upload".
Proof.
  destruct (resubmit_shows_both_banners World respond_ref sample_world
              (Some sample_user) form_ready form_ready picked_file
              eq_refl eq_refl)
    as (_ & H1 & H2).
  split; assumption.
Defined.

Lemma delete_document_spares_the_rest_witness :
  let r := run_profile respond_ref
             (FClientProfile.handleDeleteDocument (Some "c1")
                FClientProfile.initial "d1" "e1/1700.pdf")
             sample_world FClientProfile.initial in
  In ("documents", "e1/1701.pdf") (objects (backend (world r)))
  /\ table (backend (world r)) "clients" = table (backend sample_world) "clients".
Proof.
  destruct (delete_document_spares_the_rest sample_world (Some "c1")
              FClientProfile.initial FClientProfile.initial "d1" "e1/1700.pdf"
              eq_refl)
    as (_ & Hobj & Htab & _).
  split.
  - apply Hobj; [right; left; reflexivity|discriminate].
  - apply Htab. discriminate.
Defined.

Lemma upload_document_is_listed_witness :
  let p := FClientProfile.handleUploadDocument (Some "c1") (Some sample_user)
             upload_ready in
  let r := run_profile respond_ref p bucketless_world upload_ready in
  let r' := run_profile respond_ref p sample_world upload_ready in
  (In ("documents", "e1/1700.pdf") (objects (backend (world r)))
   /\ buckets (backend (world r)) = [mkBucket "documents"]
   /\ length (FClientProfile.documents (view r)) = 3%nat)
  /\ (alerts (trace r') = ["Upload failed: The resource already exists"]
      /\ objects (backend (world r')) = objects (backend sample_world)).
Proof.
  split.
  - destruct (upload_document_is_listed bucketless_world "c1"
                (Some sample_user) upload_ready upload_ready picked_file "e1"
                eq_refl eq_refl ltac:(discriminate))
      as (H & _).
    destruct (H eq_refl) as (_ & Hobj & _).
    split; [exact Hobj|]. split; vm_compute; reflexivity.
  - destruct (upload_document_is_listed sample_world "c1"
                (Some sample_user) upload_ready upload_ready picked_file "e1"
                eq_refl eq_refl ltac:(discriminate))
      as (_ & H & _).
    destruct (H eq_refl) as (Ha & _ & Ho & _).
    split; assumption.
Defined.

Lemma loadClientData_drops_returned_errors_witness :
  let r := run_profile respond_ref
             (FClientProfile.loadClientData (Some "c9") (Some "admin"))
             sample_world FClientProfile.initial in
  console_errors (trace r) = []
  /\ FClientProfile.render (Some "admin") (view r)
     = FClientProfile.LoadingClientData.
Proof.
  pose proof (loadClientData_drops_returned_errors World respond_ref
                sample_world (Some "c9") (Some "admin") FClientProfile.initial)
    as H.
  cbv zeta in H. destruct H as (Hlog & _ & H & _).
  split; [rewrite Hlog; reflexivity|].
  apply (H None eq_refl). reflexivity.
Defined.

Lemma list_loaders_keep_list_on_failure_witness :
  DocumentsUpload.uploadError
    (view (run_upload respond_database_refuses DocumentsUpload.fetchClients
             sample_world DocumentsUpload.initial))
  = Some "Failed to load client list"
  /\ DocumentsUpload.clients
       (view (run_upload respond_database_refuses DocumentsUpload.fetchClients
                sample_world DocumentsUpload.initial))
     = [].
Proof.
  pose proof (list_loaders_keep_list_on_failure World respond_database_refuses
                sample_world (Some "c1") FClientProfile.initial
                DocumentsUpload.initial) as H.
  cbv zeta in H. destruct H as (_ & _ & H & _).
  destruct (H (ErrorInstance "permission denied") eq_refl) as [Hc He].
  split; [exact He|exact Hc].
Defined.

